(** * CALENDARIO: absence requests, approvals and the hours-balance ledger

  A shallow embedding of the React client (Dashboard, MyRequests, Users,
  App routing) and of the hours ledger it talks to.

  Numbers.  Hour quantities are JavaScript numbers in the client.  In the
  pages and in the balance view they are modelled as exact rationals in
  canonical form ([Qc]), so that equality of hour totals is plain
  equality; the rounding of binary64 arithmetic and the non-finite values
  (NaN, Infinity) are outside that part of the model.  Where the client
  divides, the division is partial ([Js.div]) and the result [None]
  stands for the non-finite outcome of a division by zero.  The two
  ledger operations that write a user's totals, [adjustHours] and
  [runMonthlyAccrual], add floats: they are modelled on the binary64
  numbers of the kernel ([PrimFloat]), each sum rounded as IEEE 754 has
  it, and equality of two such totals is the equality of the language on
  numbers ([PrimFloat.eqb]).

  Dates.  The value of a date input is the empty string or a date
  [yyyy-mm-dd] whose year has four digits or more; such texts are parsed
  and compared as dates.

  Strings.  Roles, absence types and statuses are JavaScript strings and
  are kept as strings; [===] on strings is [String.eqb]. *)

From Stdlib Require Import PrimFloat Ascii.
From Stdlib Require Import QArith Qcanon.
From stdpp Require Import gmap strings list fin_maps.

Open Scope string_scope.
Open Scope Qc_scope.

(** ** JavaScript primitives used by the pages *)

Module Js.

(** [x || d] on numbers: [0] is the only falsy rational. *)
Definition or_default (x d : Qc) : Qc :=
  if decide (x = Q2Qc 0) then d else x.

(** [x / y]; a zero divisor has no rational result. *)
Definition div (x y : Qc) : option Qc :=
  if decide (y = Q2Qc 0) then None else Some (x / y).

(** [Math.min(x, y)]. *)
Definition Math_min (x y : Qc) : Qc :=
  if decide (y < x) then y else x.

(** [list.includes(x)] for an array of string literals; [x] may be
    [undefined] (an optional chain on a null user), which no literal
    equals. *)
Definition includes (l : list string) (x : option string) : bool :=
  match x with
  | Some s => existsb (String.eqb s) l
  | None => false
  end.

(** The text of an [<input type="number">]: the empty string, or the text
    of a number.  [!v] holds exactly for the empty string: the text "0" is
    a non-empty string and therefore truthy. *)
Inductive NumberText :=
| Blank
| Num (q : Qc).

Definition is_blank (v : NumberText) : bool :=
  match v with Blank => true | Num _ => false end.

(** [parseFloat(v)] as it reaches a JSON body: NaN is serialised as null. *)
Definition parseFloat (v : NumberText) : option Qc :=
  match v with Blank => None | Num q => Some q end.

(** Whether a rational is a whole number (canonical denominator 1). *)
Definition is_integer (q : Qc) : bool := Pos.eqb (Qden (this q)) 1.

(** A calendar date, as an [<input type="date">] reads its value. *)
Record Date := {
  year : N;
  month : N;
  day : N;
}.

Definition digit (c : ascii) : option N :=
  let n := N_of_ascii c in
  if (48 <=? n)%N && (n <=? 57)%N then Some (n - 48)%N else None.

(** The number written by a run of decimal digits. *)
Fixpoint number (acc : N) (cs : list ascii) : option N :=
  match cs with
  | [] => Some acc
  | c :: cs' =>
      match digit c with
      | Some d => number (10 * acc + d)%N cs'
      | None => None
      end
  end.

Definition is_leap_year (y : N) : bool :=
  (y mod 4 =? 0)%N && (negb (y mod 100 =? 0)%N || (y mod 400 =? 0)%N).

Definition days_in_month (y m : N) : N :=
  match m with
  | 1 | 3 | 5 | 7 | 8 | 10 | 12 => 31
  | 4 | 6 | 9 | 11 => 30
  | 2 => if is_leap_year y then 29 else 28
  | _ => 0
  end%N.

(** The date a text stands for in a date input, on its [value] as on its
    [min]: a year of four digits or more and greater than 0, a month of
    two digits from 01 to 12 and a day of two digits that the month has,
    with hyphens between them.  Any other text stands for no date. *)
Definition parse_date (s : string) : option Date :=
  match rev (String.list_ascii_of_string s) with
  | d2 :: d1 :: "-"%char :: m2 :: m1 :: "-"%char :: y =>
      match number 0 (rev y), number 0 [m1; m2], number 0 [d1; d2] with
      | Some yy, Some mm, Some dd =>
          if (4 <=? length y)%nat && (1 <=? yy)%N
             && (1 <=? mm)%N && (mm <=? 12)%N
             && (1 <=? dd)%N && (dd <=? days_in_month yy mm)%N
          then Some {| year := yy; month := mm; day := dd |}
          else None
      | _, _, _ => None
      end
  | _ => None
  end.

(** Whether the first date is the second or an earlier one. *)
Definition date_leb (d1 d2 : Date) : bool :=
  (year d1 <? year d2)%N
  || (year d1 =? year d2)%N
     && ((month d1 <? month d2)%N
         || (month d1 =? month d2)%N && (day d1 <=? day d2)%N).

End Js.

(** ** Documents exchanged with the API *)

Record User := {
  user_id : string;
  email : string;
  first_name : string;
  last_name : string;
  role : string;
  manager_id : option string;
  total_ferie_hours : Qc;
  total_permessi_hours : Qc;
  monthly_ferie_hours : Qc;
  monthly_permessi_hours : Qc;
}.

Record Absence := {
  absence_id : string;
  absence_user_id : string;
  absence_type : string;
  start_date : string;
  end_date : string;
  hours : option Qc;
  notes : option string;
  status : string;
  rejection_reason : option string;
  approved_by : option string;
}.

Record Balance := {
  balance_user_id : string;
  user_name : string;
  ferie_total : Qc;
  ferie_used : Qc;
  ferie_pending : Qc;
  ferie_remaining : Qc;
  permessi_total : Qc;
  permessi_used : Qc;
  permessi_pending : Qc;
  permessi_remaining : Qc;
  balance_monthly_ferie_hours : Qc;
  balance_monthly_permessi_hours : Qc;
}.

(** ** Dashboard.jsx *)

Module Dashboard.

Record Filters := {
  filterFerie : bool;
  filterPermesso : bool;
  filterMalattia : bool;
  filterStatus : string;
}.

(** The [useState] defaults of the four filters. *)
Definition initial_filters : Filters :=
  {| filterFerie := true; filterPermesso := true; filterMalattia := true;
     filterStatus := "approved" |}.

(** The callback of [absences.filter] inside [filteredAbsences]. *)
Definition keep (fl : Filters) (a : Absence) : bool :=
  if negb (String.eqb (filterStatus fl) "all")
     && negb (String.eqb (status a) (filterStatus fl)) then false
  else if String.eqb (absence_type a) "ferie" && negb (filterFerie fl) then false
  else if String.eqb (absence_type a) "permesso" && negb (filterPermesso fl) then false
  else if String.eqb (absence_type a) "malattia" && negb (filterMalattia fl) then false
  else true.

Definition filteredAbsences (absences : list Absence) (fl : Filters) : list Absence :=
  List.filter (keep fl) absences.

(** The filter bar has one checkbox per absence type: Ferie is bound to
    [filterFerie], Permessi to [filterPermesso], Malattia to
    [filterMalattia]; no other type has a checkbox. *)
Definition type_checkbox (fl : Filters) (absence_type : string) : option bool :=
  if String.eqb absence_type "ferie" then Some (filterFerie fl)
  else if String.eqb absence_type "permesso" then Some (filterPermesso fl)
  else if String.eqb absence_type "malattia" then Some (filterMalattia fl)
  else None.

(** [Math.min(100, (used / (total || 1)) * 100)]. *)
Definition percentage (used total : Qc) : option Qc :=
  match Js.div used (Js.or_default total 1) with
  | Some q => Some (Js.Math_min (Q2Qc 100) (q * Q2Qc 100))
  | None => None
  end.

(** [balance ? Math.min(...) : 0]. *)
Definition feriePercentage (balance : option Balance) : option Qc :=
  match balance with
  | Some b => percentage (ferie_used b) (ferie_total b)
  | None => Some (Q2Qc 0)
  end.

Definition permessiPercentage (balance : option Balance) : option Qc :=
  match balance with
  | Some b => percentage (permessi_used b) (permessi_total b)
  | None => Some (Q2Qc 0)
  end.

(** The state of the new-request form. *)
Record Form := {
  absenceType : string;
  startDate : string;
  endDate : string;
  form_hours : Js.NumberText;
  form_notes : string;
}.

(** The body of the POST issued by [createAbsence]. *)
Record AbsenceCreate := {
  new_absence_type : string;
  new_start_date : string;
  new_end_date : string;
  new_hours : option Qc;
  new_notes : option string;
}.

(** Constraint validation of the hours input, from its attributes
    [required], [min="0.5"], [max="8"], [step="0.5"]: the value must be
    present, within the bounds, and a whole number of steps above [min]. *)
Definition hours_min : Qc := Q2Qc (1 # 2).
Definition hours_max : Qc := Q2Qc 8.
Definition hours_step : Qc := Q2Qc (1 # 2).

Definition hours_input_valid (v : Js.NumberText) : bool :=
  match v with
  | Js.Blank => false
  | Js.Num h =>
      bool_decide (hours_min ≤ h) && bool_decide (h ≤ hours_max)
      && Js.is_integer ((h - hours_min) / hours_step)
  end.

(** Constraint validation of the whole form: the type select and both
    dates are [required], the end date carries [min={startDate}], and the
    hours input is rendered (and so validated) only for a permesso.

    A date input holds the empty string unless its text is a date, so
    that [required] asks for a date in each of the two inputs; [min] then
    holds a date, and the end date must not be earlier, the two compared
    as dates. *)
Definition dates_valid (f : Form) : bool :=
  match Js.parse_date (startDate f), Js.parse_date (endDate f) with
  | Some s, Some e => Js.date_leb s e
  | _, _ => false
  end.

Definition form_valid (f : Form) : bool :=
  negb (String.eqb (absenceType f) "")
  && dates_valid f
  && (if String.eqb (absenceType f) "permesso"
      then hours_input_valid (form_hours f) else true).

Inductive SubmitOutcome :=
| Blocked
| ToastError (msg : string)
| Posted (body : AbsenceCreate).

Definition handleCreateAbsence (f : Form) : SubmitOutcome :=
  if String.eqb (absenceType f) "permesso" && Js.is_blank (form_hours f)
  then ToastError "Inserisci le ore per il permesso"
  else Posted
    {| new_absence_type := absenceType f;
       new_start_date := startDate f;
       new_end_date := endDate f;
       new_hours := if String.eqb (absenceType f) "permesso"
                    then Js.parseFloat (form_hours f) else None;
       new_notes := if String.eqb (form_notes f) "" then None
                    else Some (form_notes f) |}.

(** Pressing the submit button: the browser fires [onSubmit] only when the
    form passes constraint validation. *)
Definition submit (f : Form) : SubmitOutcome :=
  if form_valid f then handleCreateAbsence f else Blocked.

End Dashboard.

(** ** MyRequests.jsx *)

Module MyRequests.

(** What the Azioni cell of a row offers. *)
Inductive RowAction :=
| delete_request (absenceId : string).

(** [absence.status === "pending" && <AlertDialog>...handleDelete...]. *)
Definition row_actions (absence : Absence) : list RowAction :=
  if String.eqb (status absence) "pending"
  then [delete_request (absence_id absence)]
  else [].

(** [handleDelete]: [deleted] tells whether [await deleteAbsence(absenceId)]
    resolved; when it throws, the list is left as it was. *)
Definition handleDelete (absenceId : string) (deleted : bool)
    (absences : list Absence) : list Absence :=
  if deleted
  then List.filter (λ a, negb (String.eqb (absence_id a) absenceId)) absences
  else absences.

(** [handleExport] downloads a file and leaves the list alone. *)
Definition handleExport (absences : list Absence) : list Absence := absences.

(** One interaction of the owner with the page: every handler the page
    binds to a control, on a control that is rendered. *)
Inductive owner_step (absences : list Absence) : list Absence → Prop :=
| owner_delete (a : Absence) (absenceId : string) (deleted : bool) :
    In a absences →
    In (delete_request absenceId) (row_actions a) →
    owner_step absences (handleDelete absenceId deleted absences)
| owner_export :
    owner_step absences (handleExport absences).

End MyRequests.

(** ** The API client, lib/api.js *)

Module Api.

Inductive Call :=
| getAbsences
| getMyAbsences
| getPendingAbsences
| createAbsence
| handleAbsenceAction
| deleteAbsence
| getUsers
| updateUser
| deleteUser
| register
| getMyBalance
| getUserBalance
| getAllBalances
| addHoursToUser
| runMonthlyAccrual
| getSettings
| getStats.

End Api.

(** ** The Users page (the revision that shows balances) *)

Module UsersPage.

Definition canManageHours (currentUser : option User) : bool :=
  Js.includes ["admin"; "manager"; "ufficio_personale"] (role <$> currentUser).

Definition canRunAccrual (currentUser : option User) : bool :=
  Js.includes ["admin"; "ufficio_personale"] (role <$> currentUser).

(** The buttons of the page. *)
Inductive Control :=
| monthly_accrual_btn
| add_user_btn
| open_hours_dialog_btn
| edit_user_btn
| delete_user_btn
| save_user_btn
| add_hours_btn
| create_user_btn
| cancel_btn.

(** [{canRunAccrual && <Button ... />}] followed by the add-user button. *)
Definition header_controls (currentUser : option User) : list Control :=
  (if canRunAccrual currentUser then [monthly_accrual_btn] else [])
  ++ [add_user_btn].

(** The buttons of a row of the users table: add hours (for those who can
    manage hours), edit, and delete (for an admin, on another user's row). *)
Definition row_controls (currentUser : option User) (row : User) : list Control :=
  (if canManageHours currentUser then [open_hours_dialog_btn] else [])
  ++ [edit_user_btn]
  ++ (if negb (bool_decide (Some (user_id row) = user_id <$> currentUser))
         && bool_decide (role <$> currentUser = Some "admin")
      then [delete_user_btn] else []).

(** The buttons of the three dialogs, whichever of them is open. *)
Definition dialog_controls : list Control :=
  [cancel_btn; save_user_btn; add_hours_btn; create_user_btn].

(** Every button the page can show to the current user. *)
Definition controls (currentUser : option User) (users : list User) : list Control :=
  header_controls currentUser
  ++ concat (row_controls currentUser <$> users)
  ++ (if canManageHours currentUser then [open_hours_dialog_btn] else [])
  ++ dialog_controls.

(** [fetchData]. *)
Definition fetchData : list Api.Call := [Api.getUsers; Api.getAllBalances].

(** [handleMonthlyAccrual]: [confirmed] is the answer to [confirm(...)]. *)
Definition handleMonthlyAccrual (confirmed : bool) : list Api.Call :=
  if negb confirmed then [] else Api.runMonthlyAccrual :: fetchData.

(** The API calls a click on a button can lead to, by the handler bound to
    it: the buttons that open or close a dialog call nothing. *)
Definition onClick (c : Control) (confirmed : bool) : list Api.Call :=
  match c with
  | monthly_accrual_btn => handleMonthlyAccrual confirmed
  | save_user_btn => Api.updateUser :: fetchData
  | add_hours_btn => Api.addHoursToUser :: fetchData
  | create_user_btn => Api.register :: fetchData
  | delete_user_btn => [Api.deleteUser]
  | add_user_btn | open_hours_dialog_btn | edit_user_btn | cancel_btn => []
  end.

(** The [value] of the two progress bars of a balance row. *)
Definition ferie_progress (balance : Balance) : option Qc :=
  match Js.div (ferie_used balance) (Js.or_default (ferie_total balance) 1) with
  | Some q => Some (Js.Math_min (Q2Qc 100) (q * Q2Qc 100))
  | None => None
  end.

Definition permessi_progress (balance : Balance) : option Qc :=
  match Js.div (permessi_used balance) (Js.or_default (permessi_total balance) 1) with
  | Some q => Some (Js.Math_min (Q2Qc 100) (q * Q2Qc 100))
  | None => None
  end.

(** The body of the POST issued by [addHoursToUser]. *)
Record AddHours := {
  add_user_id : string;
  hours_type : string;
  add_hours : option Qc;
  add_notes : option string;
}.

(** [handleAddHours]: returns at once without a dialog user or with an
    empty amount. *)
Definition handleAddHours (dialogUser : option User) (addHoursType : string)
    (addHoursAmount : Js.NumberText) (addHoursNotes : string) : option AddHours :=
  match dialogUser with
  | None => None
  | Some u =>
      if Js.is_blank addHoursAmount then None
      else Some {| add_user_id := user_id u;
                   hours_type := addHoursType;
                   add_hours := Js.parseFloat addHoursAmount;
                   add_notes := if String.eqb addHoursNotes "" then None
                                else Some addHoursNotes |}
  end.

End UsersPage.

(** ** App.js: routes and their guards *)

Module App.

(** What [useAuth()] gives a route guard. *)
Record Auth := {
  user : option User;
  loading : bool;
}.

Inductive Page :=
| Login
| Dashboard
| MyRequests
| Approvals
| Users
| Settings.

Inductive Element :=
| LoadingScreen
| Navigate (to : string)
| Render (page : Page).

Definition ProtectedRoute (auth : Auth) (allowedRoles : option (list string))
    (children : Element) : Element :=
  if loading auth then LoadingScreen
  else match user auth with
       | None => Navigate "/login"
       | Some u =>
           match allowedRoles with
           | Some roles =>
               if negb (Js.includes roles (Some (role u)))
               then Navigate "/" else children
           | None => children
           end
       end.

(** The routes of the table. *)
Inductive Route :=
| login_route
| index_route
| my_requests_route
| approvals_route
| users_route
| settings_route.

(** The element of each route.  Every route but the login page is nested
    in the guarded layout route. *)
Definition element (auth : Auth) (r : Route) : Element :=
  match r with
  | login_route => Render Login
  | index_route => ProtectedRoute auth None (Render Dashboard)
  | my_requests_route => ProtectedRoute auth None (Render MyRequests)
  | approvals_route =>
      ProtectedRoute auth None
        (ProtectedRoute auth (Some ["admin"; "manager"]) (Render Approvals))
  | users_route =>
      ProtectedRoute auth None
        (ProtectedRoute auth (Some ["admin"]) (Render Users))
  | settings_route =>
      ProtectedRoute auth None
        (ProtectedRoute auth (Some ["admin"]) (Render Settings))
  end.

(** The session of a signed-in user, past the loading state. *)
Definition session (u : User) : Auth := {| user := Some u; loading := false |}.

End App.

(** ** The balance ledger behind the API

    The server is not among the sources: the client only calls its
    endpoints.  Everything in this module is modelled from the
    specification of the ledger. *)

Module Ledger.

Inductive Category :=
| vacation
| permit.

(** Modelled from the spec: the error taxonomy of the server, which is
    not among the sources. *)
Inductive Error :=
| not_found
| validation
| authorization.

Inductive Result (A : Type) :=
| Ok (a : A)
| Failed (e : Error).

Arguments Ok {A} a.
Arguments Failed {A} e.

(** Modelled from the spec: the document store of the server, which is
    not among the sources: users by user id, absence requests by absence
    id. *)
Record Db := {
  users : gmap string User;
  absences : gmap string Absence;
}.

Definition with_absences (db : Db) (abs : gmap string Absence) : Db :=
  {| users := users db; absences := abs |}.

(** Modelled from the spec: the four numeric fields of a user as the
    server keeps them, which is not among the sources.  They are floats,
    as the signature of [adjustHours] has its amount: binary64 numbers,
    whose every sum is rounded.  These are the fields a [User] document
    shows to the pages. *)
Record Hours := {
  total_vacation_hours : float;
  total_permit_hours : float;
  monthly_vacation_accrual : float;
  monthly_permit_accrual : float;
}.

(** Modelled from the spec: the numeric fields of the users of the store,
    by user id. *)
Abbreviation Accounts := (gmap string Hours).



(** Modelled from the spec: what a run of the monthly accrual does to one
    user. *)
Definition accrue (h : Hours) : Hours :=
  {| total_vacation_hours := (total_vacation_hours h + monthly_vacation_accrual h)%float;
     total_permit_hours := (total_permit_hours h + monthly_permit_accrual h)%float;
     monthly_vacation_accrual := monthly_vacation_accrual h;
     monthly_permit_accrual := monthly_permit_accrual h |}.

(** Modelled from the spec: the server operation [runMonthlyAccrual],
    which is not among the sources.  For every user it adds the user's
    monthly accrual rates to the user's totals, and it reports how many
    users it updated.  It keeps no record of earlier runs. *)
Definition runMonthlyAccrual (accounts : Accounts) : Accounts * nat :=
  (accrue <$> accounts, size accounts).

(** The float of a whole number of half hours, the step of the number
    inputs of the Users page: whole numbers below 2^53 and their halves
    are binary64 numbers, so that nothing is rounded here. *)
Fixpoint whole (p : positive) : float :=
  match p with
  | xH => 1
  | xO p' => 2 * whole p'
  | xI p' => 2 * whole p' + 1
  end%float.

Definition half_hours (k : Z) : float :=
  match k with
  | Z0 => 0
  | Zpos p => whole p / 2
  | Zneg p => - (whole p / 2)
  end%float.


Section Policy.

(** How many hours a vacation request stands for is derived from its day
    span by a convention the specification leaves open; it is a
    parameter of the ledger. *)
Variable ferie_span_hours : string → string → Qc.

(** The [absence_type] of the requests of a category. *)
Definition category_type (category : Category) : string :=
  match category with
  | vacation => "ferie"
  | permit => "permesso"
  end.

(** Modelled from the spec: the hours of a request in its category.  A
    permit request carries its hours; a vacation request has them derived
    from its dates. *)
Definition request_hours (category : Category) (a : Absence) : Qc :=
  match category with
  | vacation => ferie_span_hours (start_date a) (end_date a)
  | permit => default (Q2Qc 0) (hours a)
  end.

(** Whether a request is one of a user's requests in a category and a
    status. *)
Definition counts_for (userId : string) (category : Category) (st : string)
    (a : Absence) : bool :=
  String.eqb (absence_user_id a) userId
  && String.eqb (absence_type a) (category_type category)
  && String.eqb (status a) st.

(** What a request adds to the sum of the hours of the requests of a user
    in a category and a status. *)
Definition contribution (userId : string) (category : Category) (st : string)
    (a : Absence) : Qc :=
  if counts_for userId category st a then request_hours category a else Q2Qc 0.

(** The same sum told on lists: the user's requests in the category and
    the status, and the total of the hours of a list of requests. *)
Definition requests_of (userId : string) (category : Category) (st : string)
    (requests : gmap string Absence) : list Absence :=
  List.filter (counts_for userId category st) (map_to_list requests).*2.

Definition total_hours (category : Category) (l : list Absence) : Qc :=
  foldr (λ a acc, acc + request_hours category a) (Q2Qc 0) l.

Definition sum_hours (userId : string) (category : Category) (st : string)
    (requests : gmap string Absence) : Qc :=
  map_fold (λ _ a acc, acc + contribution userId category st a) (Q2Qc 0) requests.

Record CategoryBalance := {
  total : Qc;
  used : Qc;
  pending : Qc;
  remaining : Qc;
}.

Definition category_total (category : Category) (u : User) : Qc :=
  match category with
  | vacation => total_ferie_hours u
  | permit => total_permessi_hours u
  end.

(** Modelled from the spec: the server operation [computeBalance], which
    is not among the sources.  For each of the two categories: [used] is
    the sum of the hours of the user's approved requests in the category,
    [pending] that of the user's pending requests, and
    [remaining = total − used − pending].  It fails when the user id
    resolves to no user. *)
Definition computeBalance (userId : string) (db : Db)
    : Result (Category → CategoryBalance) :=
  match users db !! userId with
  | None => Failed not_found
  | Some u =>
      Ok (λ category,
        let t := category_total category u in
        let us := sum_hours userId category "approved" (absences db) in
        let pe := sum_hours userId category "pending" (absences db) in
        {| total := t; used := us; pending := pe; remaining := t - us - pe |})
  end.

(** Modelled from the spec: the operations the ledger offers to the API
    layer (the table of section 6). *)
Inductive Operation :=
| add_hours
| run_monthly_accrual
| get_my_balance
| get_user_balance
| get_all_balances.

(** Modelled from the spec: the caller role each operation requires,
    checked by the server, which is not among the sources; [None] stands
    for any authenticated user.  The role the specification calls
    personnel-office is [ufficio_personale] in the data. *)
Definition required_roles (op : Operation) : option (list string) :=
  match op with
  | add_hours => Some ["admin"; "manager"; "ufficio_personale"]
  | run_monthly_accrual => Some ["admin"; "ufficio_personale"]
  | get_my_balance => None
  | get_user_balance => Some ["admin"; "manager"; "ufficio_personale"]
  | get_all_balances => Some ["admin"; "manager"; "ufficio_personale"]
  end.

Definition authorized (op : Operation) (caller : User) : bool :=
  match required_roles op with
  | Some roles => Js.includes roles (Some (role caller))
  | None => true
  end.

(** Modelled from the spec: the server operation [listAllBalances], which
    is not among the sources: the batch variant of [computeBalance] for
    all users, refused with an authorization error to a caller who lacks
    the role. *)
Definition listAllBalances (caller : User) (db : Db)
    : Result (list (string * Result (Category → CategoryBalance))) :=
  if authorized get_all_balances caller
  then Ok ((λ entry, (entry.1, computeBalance entry.1 db)) <$> map_to_list (users db))
  else Failed authorization.

End Policy.

Inductive Action :=
| approve
| reject.

(** Modelled from the spec: the status transition of a request.  The
    dates, the hours, the type and the owner stay as they are. *)
Definition apply_action (action : Action) (reason : option string)
    (approver : string) (a : Absence) : Absence :=
  {| absence_id := absence_id a;
     absence_user_id := absence_user_id a;
     absence_type := absence_type a;
     start_date := start_date a;
     end_date := end_date a;
     hours := hours a;
     notes := notes a;
     status := match action with approve => "approved" | reject => "rejected" end;
     rejection_reason := match action with approve => None | reject => reason end;
     approved_by := Some approver |}.

(** Modelled from the spec: the server side of [handleAbsenceAction]
    (approve or reject a request), which is not among the sources.  It
    performs the status transition on the request and persists it; it
    fails when the absence id resolves to no request. *)
Definition handleAbsenceAction (absenceId : string) (action : Action)
    (reason : option string) (approver : string) (db : Db) : Result Db :=
  match absences db !! absenceId with
  | None => Failed not_found
  | Some a =>
      Ok (with_absences db
            (<[absenceId := apply_action action reason approver a]> (absences db)))
  end.

End Ledger.

(** ** Dashboard.jsx: the filter bar *)

Module FilterBar.

(** [onCheckedChange] of the three checkboxes. *)
Definition setFilterFerie (checked : bool) (fl : Dashboard.Filters) : Dashboard.Filters :=
  {| Dashboard.filterFerie := checked;
     Dashboard.filterPermesso := Dashboard.filterPermesso fl;
     Dashboard.filterMalattia := Dashboard.filterMalattia fl;
     Dashboard.filterStatus := Dashboard.filterStatus fl |}.

Definition setFilterPermesso (checked : bool) (fl : Dashboard.Filters) : Dashboard.Filters :=
  {| Dashboard.filterFerie := Dashboard.filterFerie fl;
     Dashboard.filterPermesso := checked;
     Dashboard.filterMalattia := Dashboard.filterMalattia fl;
     Dashboard.filterStatus := Dashboard.filterStatus fl |}.

Definition setFilterMalattia (checked : bool) (fl : Dashboard.Filters) : Dashboard.Filters :=
  {| Dashboard.filterFerie := Dashboard.filterFerie fl;
     Dashboard.filterPermesso := Dashboard.filterPermesso fl;
     Dashboard.filterMalattia := checked;
     Dashboard.filterStatus := Dashboard.filterStatus fl |}.

(** [onValueChange] of the status select. *)
Definition setFilterStatus (value : string) (fl : Dashboard.Filters) : Dashboard.Filters :=
  {| Dashboard.filterFerie := Dashboard.filterFerie fl;
     Dashboard.filterPermesso := Dashboard.filterPermesso fl;
     Dashboard.filterMalattia := Dashboard.filterMalattia fl;
     Dashboard.filterStatus := value |}.

End FilterBar.

(** ** Dashboard.jsx: the calendar *)

Module Calendar.

(** [[...new Set(l)]]: the distinct elements, in the order of their first
    occurrence. *)
Definition distinct (l : list string) : list string :=
  fold_left (λ seen x, if existsb (String.eqb x) seen then seen else (seen ++ [x])%list)
            l [].

(** The object [days]: its entries in insertion order, one per key. *)
Definition Days := list (string * list Absence).

(** [days[key]]. *)
Fixpoint lookup_day (days : Days) (key : string) : option (list Absence) :=
  match days with
  | [] => None
  | (k, dayAbsences) :: rest =>
      if String.eqb k key then Some dayAbsences else lookup_day rest key
  end.

(** [if (!days[key]) days[key] = []; days[key].push(absence)]. *)
Fixpoint push_day (days : Days) (key : string) (absence : Absence) : Days :=
  match days with
  | [] => [(key, [absence])]
  | (k, dayAbsences) :: rest =>
      if String.eqb k key then (k, (dayAbsences ++ [absence])%list) :: rest
      else (k, dayAbsences) :: push_day rest key absence
  end.

Section DateFns.

(** The date library is not among the sources.  [interval_keys start end]
    stands for [parseISO] of both dates, [eachDayOfInterval] over them and
    [format(day, "yyyy-MM-dd")] of each day: the keys of the days of the
    interval, or [None] when the library throws (which the caller
    catches before anything is filed). *)
Variable interval_keys : string → string → option (list string).

(** The body of [filteredAbsences.forEach] in [absenceDays]. *)
Definition add_absence (days : Days) (absence : Absence) : Days :=
  match interval_keys (start_date absence) (end_date absence) with
  | Some keys => fold_left (λ d key, push_day d key absence) keys days
  | None => days
  end.

Definition absenceDays (filteredAbsences : list Absence) : Days :=
  fold_left add_absence filteredAbsences [].

(** Whether the interval of a request has the day of a key. *)
Definition covers (key : string) (absence : Absence) : bool :=
  match interval_keys (start_date absence) (end_date absence) with
  | Some keys => existsb (String.eqb key) keys
  | None => false
  end.

End DateFns.

(** [types] of a day: the distinct absence types of its absences. *)
Definition types (dayAbsences : list Absence) : list string :=
  distinct (absence_type <$> dayAbsences).

(** The days pushed to one of the three arrays of [modifiers], each named
    by its key (the source parses the key back to a date). *)
Definition days_of_type (absence_type : string) (days : Days) : list string :=
  (List.filter (λ entry, Js.includes (types entry.2) (Some absence_type)) days).*1.

Record Modifiers := {
  ferie : list string;
  permesso : list string;
  malattia : list string;
}.

Definition modifiers (days : Days) : Modifiers :=
  {| ferie := days_of_type "ferie" days;
     permesso := days_of_type "permesso" days;
     malattia := days_of_type "malattia" days |}.

End Calendar.

(** ** Layout.jsx: the sidebar *)

Module Layout.





End Layout.

(** ** The Approvals page *)

Module Approvals.

(** *** The first revision: the page keeps the pending list itself *)

Record State := {
  absences : list Absence;
  processing : option string;
  rejectDialog_open : bool;
  rejectDialog_absence : option Absence;
  rejectReason : string;
}.

(** [absences.filter((a) => a.absence_id !== absenceId)]. *)
Definition without (absenceId : string) (l : list Absence) : list Absence :=
  List.filter (λ a, negb (String.eqb (absence_id a) absenceId)) l.

(** A call of [handleApprove] that awaits the server: the handler is a
    closure of the render in which the button was clicked and keeps the
    [absences] of that render. *)
Record Awaiting := {
  awaited_id : string;
  captured : list Absence;
}.

(** [handleApprove] up to its [await]: [setProcessing(absenceId)]. *)
Definition handleApprove_begin (absenceId : string) (st : State) : State * Awaiting :=
  ({| absences := absences st; processing := Some absenceId;
      rejectDialog_open := rejectDialog_open st;
      rejectDialog_absence := rejectDialog_absence st;
      rejectReason := rejectReason st |},
   {| awaited_id := absenceId; captured := absences st |}).

(** [handleApprove] after its [await]: [approved] tells whether the call
    resolved; [setAbsences] receives the filtered captured list, and
    [finally] resets [processing]. *)
Definition handleApprove_end (approved : bool) (w : Awaiting) (st : State) : State :=
  {| absences := if approved then without (awaited_id w) (captured w)
                 else absences st;
     processing := None;
     rejectDialog_open := rejectDialog_open st;
     rejectDialog_absence := rejectDialog_absence st;
     rejectReason := rejectReason st |}.

(** A call of [handleApprove] that nothing interleaves with. *)
Definition handleApprove (absenceId : string) (approved : bool) (st : State) : State :=
  let '(st', w) := handleApprove_begin absenceId st in
  handleApprove_end approved w st'.

(** The Rifiuta button of a row: [setRejectDialog({ open: true, absence })]. *)
Definition openRejectDialog (absence : Absence) (st : State) : State :=
  {| absences := absences st; processing := processing st;
     rejectDialog_open := true; rejectDialog_absence := Some absence;
     rejectReason := rejectReason st |}.

(** [onChange] of the reason text area. *)
Definition setRejectReason (reason : string) (st : State) : State :=
  {| absences := absences st; processing := processing st;
     rejectDialog_open := rejectDialog_open st;
     rejectDialog_absence := rejectDialog_absence st;
     rejectReason := reason |}.

(** [onOpenChange] of the dialog (a click outside it, the escape key):
    [setRejectDialog({ open, absence: rejectDialog.absence })]. *)
Definition onOpenChange (open : bool) (st : State) : State :=
  {| absences := absences st; processing := processing st;
     rejectDialog_open := open;
     rejectDialog_absence := rejectDialog_absence st;
     rejectReason := rejectReason st |}.

(** The Annulla button of this revision: it closes the dialog and clears
    the reason. *)
Definition cancelReject (st : State) : State :=
  {| absences := absences st; processing := processing st;
     rejectDialog_open := false; rejectDialog_absence := None;
     rejectReason := "" |}.

(** What [handleReject] sends: the absence id and the reason. *)
Record RejectCall := {
  reject_id : string;
  reject_reason : string;
}.

(** [handleReject], with nothing interleaved: without a dialog absence it
    returns at once; [rejected] tells whether the call resolved. *)
Definition handleReject (rejected : bool) (st : State) : option RejectCall * State :=
  match rejectDialog_absence st with
  | None => (None, st)
  | Some absence =>
      (Some {| reject_id := absence_id absence; reject_reason := rejectReason st |},
       if rejected then
         {| absences := without (absence_id absence) (absences st);
            processing := None;
            rejectDialog_open := false; rejectDialog_absence := None;
            rejectReason := "" |}
       else
         {| absences := absences st; processing := None;
            rejectDialog_open := rejectDialog_open st;
            rejectDialog_absence := rejectDialog_absence st;
            rejectReason := rejectReason st |})
  end.

(** *** The later revision (Approvals.jsx): lists are fetched again *)

(** The state of the reject dialog of this revision. *)
Record RejectState := {
  dialog_open : bool;
  dialog_absence : option Absence;
  reason : string;
}.

Definition openReject (absence : Absence) (st : RejectState) : RejectState :=
  {| dialog_open := true; dialog_absence := Some absence; reason := reason st |}.

Definition typeReason (text : string) (st : RejectState) : RejectState :=
  {| dialog_open := dialog_open st; dialog_absence := dialog_absence st;
     reason := text |}.

(** The Annulla button of this revision: [setRejectDialog({ open: false,
    absence: null })], and nothing else. *)
Definition cancel (st : RejectState) : RejectState :=
  {| dialog_open := false; dialog_absence := None; reason := reason st |}.

(** [handleReject] of this revision: the call it sends, if any, and the
    dialog state it leaves; [rejected] tells whether the call resolved. *)
Definition confirmReject (rejected : bool) (st : RejectState)
    : option RejectCall * RejectState :=
  match dialog_absence st with
  | None => (None, st)
  | Some absence =>
      (Some {| reject_id := absence_id absence; reject_reason := reason st |},
       if rejected
       then {| dialog_open := false; dialog_absence := None; reason := "" |}
       else st)
  end.

End Approvals.

(** ** The Settings page *)

Module Settings.

Record File := {
  file_type : string;
  file_size : N;
}.

Inductive Selection :=
| Ignored
| ToastError (msg : string)
| Upload (file : File).

(** [handleFileSelect] up to the upload: [files] is [e.target.files]. *)
Definition handleFileSelect (files : list File) : Selection :=
  match files with
  | [] => Ignored
  | file :: _ =>
      if negb (String.prefix "image/" (file_type file))
      then ToastError "Seleziona un file immagine"
      else if (2 * 1024 * 1024 <? file_size file)%N
      then ToastError "Il file non può superare 2MB"
      else Upload file
  end.

End Settings.

(** ** The Users page: the edit dialog and the new-user dialog *)

Module UserForms.

(** [parseFloat(text) || 0]. *)
Definition number_or_zero (text : Js.NumberText) : Qc :=
  match Js.parseFloat text with
  | Some q => Js.or_default q (Q2Qc 0)
  | None => Q2Qc 0
  end.

(** The fields of the edit dialog. *)
Record EditState := {
  editDialog_user : option User;
  editRole : string;
  editManager : string;
  editFerieTotal : Js.NumberText;
  editPermessiTotal : Js.NumberText;
  editFerieMonthly : Js.NumberText;
  editPermessiMonthly : Js.NumberText;
}.

(** [openEditDialog]: [user.manager_id || "none"], and the text of each
    number. *)
Definition openEditDialog (user : User) : EditState :=
  {| editDialog_user := Some user;
     editRole := role user;
     editManager := match manager_id user with
                    | Some m => if String.eqb m "" then "none" else m
                    | None => "none"
                    end;
     editFerieTotal := Js.Num (total_ferie_hours user);
     editPermessiTotal := Js.Num (total_permessi_hours user);
     editFerieMonthly := Js.Num (monthly_ferie_hours user);
     editPermessiMonthly := Js.Num (monthly_permessi_hours user) |}.

(** The body of the PUT issued by [updateUser]. *)
Record UpdateData := {
  update_role : string;
  update_manager_id : option string;
  update_total_ferie_hours : Qc;
  update_total_permessi_hours : Qc;
  update_monthly_ferie_hours : Qc;
  update_monthly_permessi_hours : Qc;
}.

(** [handleSave]: the user id and the body it sends; nothing without a
    dialog user. *)
Definition handleSave (st : EditState) : option (string * UpdateData) :=
  match editDialog_user st with
  | None => None
  | Some u =>
      Some (user_id u,
            {| update_role := editRole st;
               update_manager_id := if String.eqb (editManager st) "none" then None
                                    else Some (editManager st);
               update_total_ferie_hours := number_or_zero (editFerieTotal st);
               update_total_permessi_hours := number_or_zero (editPermessiTotal st);
               update_monthly_ferie_hours := number_or_zero (editFerieMonthly st);
               update_monthly_permessi_hours := number_or_zero (editPermessiMonthly st) |})
  end.

(** The fields of the new-user dialog; the four numbers are kept as
    numbers by their [onChange]. *)
Record NewUser := {
  new_email : string;
  new_password : string;
  new_first_name : string;
  new_last_name : string;
  new_role : string;
  new_manager_id : string;
  new_total_ferie_hours : Qc;
  new_total_permessi_hours : Qc;
  new_monthly_ferie_hours : Qc;
  new_monthly_permessi_hours : Qc;
}.

(** The [useState] default, to which a successful creation resets. *)
Definition initial_newUser : NewUser :=
  {| new_email := ""; new_password := ""; new_first_name := ""; new_last_name := "";
     new_role := "employee"; new_manager_id := "none";
     new_total_ferie_hours := Q2Qc 0; new_total_permessi_hours := Q2Qc 0;
     new_monthly_ferie_hours := Q2Qc 0; new_monthly_permessi_hours := Q2Qc 0 |}.

(** The body of the POST to the register endpoint. *)
Record UserData := {
  data_email : string;
  data_password : string;
  data_first_name : string;
  data_last_name : string;
  data_role : string;
  data_manager_id : option string;
  data_total_ferie_hours : Qc;
  data_total_permessi_hours : Qc;
  data_monthly_ferie_hours : Qc;
  data_monthly_permessi_hours : Qc;
}.

Inductive AddOutcome :=
| Refused (msg : string)
| Posted (userData : UserData).

(** [handleAddUser] up to its [await]. *)
Definition handleAddUser (newUser : NewUser) : AddOutcome :=
  if String.eqb (new_email newUser) "" || String.eqb (new_password newUser) ""
     || String.eqb (new_first_name newUser) "" || String.eqb (new_last_name newUser) ""
  then Refused "Compila tutti i campi obbligatori"
  else Posted
    {| data_email := new_email newUser;
       data_password := new_password newUser;
       data_first_name := new_first_name newUser;
       data_last_name := new_last_name newUser;
       data_role := new_role newUser;
       data_manager_id := if String.eqb (new_manager_id newUser) "none" then None
                          else Some (new_manager_id newUser);
       data_total_ferie_hours := Js.or_default (new_total_ferie_hours newUser) (Q2Qc 0);
       data_total_permessi_hours := Js.or_default (new_total_permessi_hours newUser) (Q2Qc 0);
       data_monthly_ferie_hours := Js.or_default (new_monthly_ferie_hours newUser) (Q2Qc 0);
       data_monthly_permessi_hours :=
         Js.or_default (new_monthly_permessi_hours newUser) (Q2Qc 0) |}.

(** [handleAddUser] after its [await]: the form as it is left; [created]
    tells whether the call resolved. *)
Definition after_handleAddUser (created : bool) (newUser : NewUser) : NewUser :=
  match handleAddUser newUser with
  | Refused _ => newUser
  | Posted _ => if created then initial_newUser else newUser
  end.

End UserForms.

(** ** Sample documents *)

Definition an_employee : User :=
  {| user_id := "u1"; email := "ugo.bianchi@azienda.it";
     first_name := "Ugo"; last_name := "Bianchi";
     role := "employee"; manager_id := Some "u2";
     total_ferie_hours := Q2Qc 160; total_permessi_hours := Q2Qc 40;
     monthly_ferie_hours := Q2Qc 14; monthly_permessi_hours := Q2Qc 3 |}.

Definition a_manager : User :=
  {| user_id := "u2"; email := "marta.neri@azienda.it";
     first_name := "Marta"; last_name := "Neri";
     role := "manager"; manager_id := None;
     total_ferie_hours := Q2Qc 160; total_permessi_hours := Q2Qc 40;
     monthly_ferie_hours := Q2Qc 14; monthly_permessi_hours := Q2Qc 3 |}.

Definition an_office_clerk : User :=
  {| user_id := "u3"; email := "pia.verdi@azienda.it";
     first_name := "Pia"; last_name := "Verdi";
     role := "ufficio_personale"; manager_id := None;
     total_ferie_hours := Q2Qc 160; total_permessi_hours := Q2Qc 40;
     monthly_ferie_hours := Q2Qc 14; monthly_permessi_hours := Q2Qc 3 |}.

(** A permit request of four hours on 10 January 2026. *)
Definition a_permit_request (st : string) : Absence :=
  {| absence_id := "a1"; absence_user_id := "u1";
     absence_type := "permesso";
     start_date := "2026-01-10"; end_date := "2026-01-10";
     hours := Some (Q2Qc 4); notes := None;
     status := st; rejection_reason := None; approved_by := None |}.

Definition a_vacation_request (st : string) : Absence :=
  {| absence_id := "a2"; absence_user_id := "u1";
     absence_type := "ferie";
     start_date := "2026-08-10"; end_date := "2026-08-14";
     hours := None; notes := Some "mare";
     status := st; rejection_reason := None; approved_by := None |}.

Definition a_store : Ledger.Db :=
  {| Ledger.users := {[ "u1" := an_employee; "u2" := a_manager ]};
     Ledger.absences := {[ "a1" := a_permit_request "pending" ]} |}.

(** The numeric fields of two users: whole hours, and a total and a rate
    that no binary64 number equals (the nearest ones stand for them). *)
#[local] Set Warnings "-inexact-float".




Definition a_balance : Balance :=
  {| balance_user_id := "u1"; user_name := "Ugo Bianchi";
     ferie_total := Q2Qc 160; ferie_used := Q2Qc 40;
     ferie_pending := Q2Qc 8; ferie_remaining := Q2Qc 112;
     permessi_total := Q2Qc 0; permessi_used := Q2Qc 4;
     permessi_pending := Q2Qc 0; permessi_remaining := - Q2Qc 4;
     balance_monthly_ferie_hours := Q2Qc 14;
     balance_monthly_permessi_hours := Q2Qc 3 |}.

(** A convention for the examples: every vacation request counts 8 hours. *)
Definition eight_hours (start_date end_date : string) : Qc := Q2Qc 8.

Definition a_permit_form (v : Js.NumberText) : Dashboard.Form :=
  {| Dashboard.absenceType := "permesso";
     Dashboard.startDate := "2026-01-10"; Dashboard.endDate := "2026-01-10";
     Dashboard.form_hours := v; Dashboard.form_notes := "" |}.

(** ** Further sample documents *)

(** A stand-in for the date library on the sample dates: the week of the
    sample vacation, and single days. *)
Definition sample_interval_keys (start_date end_date : string) : option (list string) :=
  if String.eqb start_date "2026-08-10" && String.eqb end_date "2026-08-14"
  then Some ["2026-08-10"; "2026-08-11"; "2026-08-12"; "2026-08-13"; "2026-08-14"]
  else if String.eqb start_date end_date then Some [start_date]
  else None.

Definition sample_absences : list Absence :=
  [a_permit_request "pending"; a_vacation_request "approved"].

Definition a_visitor : App.Auth := {| App.user := None; App.loading := false |}.

Definition a_pending_page : Approvals.State :=
  {| Approvals.absences := [a_permit_request "pending"; a_vacation_request "pending"];
     Approvals.processing := None;
     Approvals.rejectDialog_open := false;
     Approvals.rejectDialog_absence := None;
     Approvals.rejectReason := "" |}.


(** * Properties *)

(** Closed goals over decidable propositions, by evaluation. *)
Ltac by_computation :=
  match goal with
  | |- ?P => apply (bool_decide_unpack P); vm_compute; exact I
  end.

(** ** Progress bars *)

Lemma or_default_nonzero (x : Qc) : Js.or_default x 1 ≠ Q2Qc 0.
Proof.
  unfold Js.or_default. case_decide; [|done].
  intros H1. apply (f_equal this) in H1. discriminate H1.
Qed.

Lemma Math_min_le_l (x y : Qc) : (Js.Math_min x y ≤ x)%Qc.
Proof.
  unfold Js.Math_min. case_decide.
  - by apply Qclt_le_weak.
  - apply Qcle_refl.
Qed.

(** The clamped percentage in closed form. *)
Lemma percentage_spec (used total : Qc) :
  ∃ v, Dashboard.percentage used total = Some v ∧
       (v ≤ Q2Qc 100)%Qc ∧
       (total ≠ Q2Qc 0 →
          v = Js.Math_min (Q2Qc 100) (used / total * Q2Qc 100)) ∧
       (total = Q2Qc 0 →
          v = Js.Math_min (Q2Qc 100) (used / 1 * Q2Qc 100)).
Proof.
  unfold Dashboard.percentage, Js.div.
  destruct (decide (Js.or_default total 1 = Q2Qc 0)) as [Hz|_].
  { by apply or_default_nonzero in Hz. }
  eexists; split; [reflexivity|].
  split; [apply Math_min_le_l|].
  unfold Js.or_default. split; intros Ht; case_decide; done.
Qed.

Lemma Math_min_cases (x y : Qc) :
  ((y ≤ x)%Qc → Js.Math_min x y = y) ∧ ((x ≤ y)%Qc → Js.Math_min x y = x).
Proof.
  unfold Js.Math_min. case_decide as Hlt; split; intros Hle; try done.
  - by apply Qcle_not_lt in Hle.
  - apply Qcnot_lt_le in Hlt. by apply Qcle_antisym.
Qed.

(** The value of a progress bar, told without [Math.min]. *)
Lemma percentage_value (used total : Qc) :
  ∃ v, Dashboard.percentage used total = Some v ∧
       (v ≤ Q2Qc 100)%Qc ∧
       (total ≠ Q2Qc 0 →
          ((used / total * Q2Qc 100 ≤ Q2Qc 100)%Qc → v = used / total * Q2Qc 100) ∧
          ((Q2Qc 100 ≤ used / total * Q2Qc 100)%Qc → v = Q2Qc 100)) ∧
       (total = Q2Qc 0 →
          ((used * Q2Qc 100 ≤ Q2Qc 100)%Qc → v = used * Q2Qc 100) ∧
          ((Q2Qc 100 ≤ used * Q2Qc 100)%Qc → v = Q2Qc 100)).
Proof.
  destruct (percentage_spec used total) as (v & Hv & Hle & Hnz & Hz).
  exists v. split; [done|]. split; [done|]. split; intros Ht.
  - rewrite (Hnz Ht). apply Math_min_cases.
  - rewrite (Hz Ht). replace (used / 1) with used by (by field).
    apply Math_min_cases.
Qed.

(** C9.  For every balance a page displays, the value of each progress
    bar is defined and at most 100, on the Dashboard and in the rows of
    the Users page, which show the same value.  The division is never by
    zero: the divisor [total || 1] is the total, or 1 when the total is
    0.  With a total other than 0 the value is [used / total * 100]
    where that is at most 100 and is 100 where that is 100 or more; with
    a total of 0 the same holds of [used * 100].  While no balance is
    loaded the Dashboard shows 0. *)
Theorem progress_value_defined_and_clamped :
  (∀ total : Qc,
     Js.or_default total 1 ≠ Q2Qc 0 ∧
     (total = Q2Qc 0 → Js.or_default total 1 = 1) ∧
     (total ≠ Q2Qc 0 → Js.or_default total 1 = total)) ∧
  (∀ balance : Balance,
     ∃ v, Dashboard.feriePercentage (Some balance) = Some v ∧
          UsersPage.ferie_progress balance = Some v ∧
          (v ≤ Q2Qc 100)%Qc ∧
          (ferie_total balance ≠ Q2Qc 0 →
             ((ferie_used balance / ferie_total balance * Q2Qc 100 ≤ Q2Qc 100)%Qc →
              v = ferie_used balance / ferie_total balance * Q2Qc 100) ∧
             ((Q2Qc 100 ≤ ferie_used balance / ferie_total balance * Q2Qc 100)%Qc →
              v = Q2Qc 100)) ∧
          (ferie_total balance = Q2Qc 0 →
             ((ferie_used balance * Q2Qc 100 ≤ Q2Qc 100)%Qc →
              v = ferie_used balance * Q2Qc 100) ∧
             ((Q2Qc 100 ≤ ferie_used balance * Q2Qc 100)%Qc → v = Q2Qc 100))) ∧
  (∀ balance : Balance,
     ∃ v, Dashboard.permessiPercentage (Some balance) = Some v ∧
          UsersPage.permessi_progress balance = Some v ∧
          (v ≤ Q2Qc 100)%Qc ∧
          (permessi_total balance ≠ Q2Qc 0 →
             ((permessi_used balance / permessi_total balance * Q2Qc 100 ≤ Q2Qc 100)%Qc →
              v = permessi_used balance / permessi_total balance * Q2Qc 100) ∧
             ((Q2Qc 100 ≤ permessi_used balance / permessi_total balance * Q2Qc 100)%Qc →
              v = Q2Qc 100)) ∧
          (permessi_total balance = Q2Qc 0 →
             ((permessi_used balance * Q2Qc 100 ≤ Q2Qc 100)%Qc →
              v = permessi_used balance * Q2Qc 100) ∧
             ((Q2Qc 100 ≤ permessi_used balance * Q2Qc 100)%Qc → v = Q2Qc 100))) ∧
  Dashboard.feriePercentage None = Some (Q2Qc 0) ∧
  Dashboard.permessiPercentage None = Some (Q2Qc 0).
Proof.
  split; [|split; [|split; [|split]]]; [| | |reflexivity..].
  - intros total. split; [apply or_default_nonzero|].
    unfold Js.or_default. split; intros Ht; case_decide; done.
  - intros b.
    destruct (percentage_value (ferie_used b) (ferie_total b))
      as (v & Hv & Hle & Hnz & Hz).
    exists v. by repeat split; try apply Hnz; try apply Hz.
  - intros b.
    destruct (percentage_value (permessi_used b) (permessi_total b))
      as (v & Hv & Hle & Hnz & Hz).
    exists v. by repeat split; try apply Hnz; try apply Hz.
Qed.

Example percentage_half : Dashboard.percentage (Q2Qc 20) (Q2Qc 40) = Some (Q2Qc 50).
Proof. by_computation. Qed.

Example percentage_zero_total : Dashboard.percentage (Q2Qc 3) (Q2Qc 0) = Some (Q2Qc 100).
Proof. by_computation. Qed.

Example percentage_over : Dashboard.percentage (Q2Qc 50) (Q2Qc 40) = Some (Q2Qc 100).
Proof. by_computation. Qed.

(** ** The Dashboard filters *)

Lemma keep_known_type (fl : Dashboard.Filters) (a : Absence) :
  In (absence_type a) ["ferie"; "permesso"; "malattia"] →
  Dashboard.keep fl a = true ↔
    (Dashboard.filterStatus fl = "all" ∨ status a = Dashboard.filterStatus fl) ∧
    Dashboard.type_checkbox fl (absence_type a) = Some true.
Proof.
  intros Hty. unfold Dashboard.keep, Dashboard.type_checkbox.
  destruct (String.eqb_spec (Dashboard.filterStatus fl) "all") as [Hall|Hall];
    destruct (String.eqb_spec (status a) (Dashboard.filterStatus fl)) as [Hst|Hst];
    simpl.
  all: destruct Hty as [<-|[<-|[<-|[]]]]; simpl.
  all: destruct fl as [[] [] [] ?]; simpl in *.
  all: split; [intros ?|intros [[?|?] ?]]; try done; auto.
Qed.

(** An absence of a type without a checkbox passes the type filters
    whatever the checkboxes say. *)
Lemma keep_other_type (fl : Dashboard.Filters) (a : Absence) :
  Dashboard.type_checkbox fl (absence_type a) = None →
  Dashboard.keep fl a = true ↔
    (Dashboard.filterStatus fl = "all" ∨ status a = Dashboard.filterStatus fl).
Proof.
  unfold Dashboard.keep, Dashboard.type_checkbox.
  destruct (String.eqb (absence_type a) "ferie"); [done|].
  destruct (String.eqb (absence_type a) "permesso"); [done|].
  destruct (String.eqb (absence_type a) "malattia"); [done|].
  intros _. simpl.
  destruct (String.eqb_spec (Dashboard.filterStatus fl) "all") as [Hall|Hall];
    destruct (String.eqb_spec (status a) (Dashboard.filterStatus fl)) as [Hst|Hst];
    simpl; split; auto; try done.
  by intros [?|?].
Qed.

Lemma keep_initial (a : Absence) :
  Dashboard.keep Dashboard.initial_filters a = String.eqb (status a) "approved".
Proof.
  unfold Dashboard.keep. simpl.
  destruct (String.eqb (status a) "approved"); simpl; [|done].
  by rewrite !andb_false_r.
Qed.

(** C10.  An absence of one of the three types is in the filtered list of
    the Dashboard exactly when it is in the list of absences, the status
    filter is "all" or equals its status, and the checkbox of its type is
    ticked.  The status filter starts as "approved" with every checkbox
    ticked, so that at first exactly the approved absences are shown and
    the pending and rejected ones are hidden. *)
Theorem filteredAbsences_membership
    (absences : list Absence) (fl : Dashboard.Filters) (a : Absence) :
  (In (absence_type a) ["ferie"; "permesso"; "malattia"] →
   (In a (Dashboard.filteredAbsences absences fl) ↔
      In a absences ∧
      (Dashboard.filterStatus fl = "all" ∨ status a = Dashboard.filterStatus fl) ∧
      Dashboard.type_checkbox fl (absence_type a) = Some true)) ∧
  Dashboard.filterStatus Dashboard.initial_filters = "approved" ∧
  (In a (Dashboard.filteredAbsences absences Dashboard.initial_filters) ↔
     In a absences ∧ status a = "approved") ∧
  (status a = "pending" ∨ status a = "rejected" →
   ¬ In a (Dashboard.filteredAbsences absences Dashboard.initial_filters)).
Proof.
  unfold Dashboard.filteredAbsences.
  split; [intros Hty|split; [reflexivity|split]].
  - rewrite filter_In, (keep_known_type fl a Hty). tauto.
  - rewrite filter_In, keep_initial. by rewrite String.eqb_eq.
  - intros Hst [_ Hk]%filter_In. rewrite keep_initial in Hk.
    apply String.eqb_eq in Hk. rewrite Hk in Hst. by destruct Hst.
Qed.

(** ** The new-request form *)

Lemma hours_input_valid_range (h : Qc) :
  Dashboard.hours_input_valid (Js.Num h) = true →
  (Q2Qc (1 # 2) ≤ h)%Qc ∧ (h ≤ Q2Qc 8)%Qc.
Proof.
  simpl. intros [[Hlo Hhi]%andb_true_iff _]%andb_true_iff.
  apply bool_decide_eq_true in Hlo. apply bool_decide_eq_true in Hhi.
  done.
Qed.

Lemma hours_input_invalid_zero :
  Dashboard.hours_input_valid (Js.Num (Q2Qc 0)) = false.
Proof. reflexivity. Qed.

Lemma hours_input_invalid_above (h : Qc) :
  (Q2Qc 8 < h)%Qc → Dashboard.hours_input_valid (Js.Num h) = false.
Proof.
  intros Hlt. simpl.
  rewrite (bool_decide_eq_false_2 (h ≤ Dashboard.hours_max)%Qc).
  - by rewrite andb_false_r.
  - by apply Qclt_not_le.
Qed.

(** A canonical rational is whole exactly when it is an integer. *)
Lemma is_integer_spec (q : Qc) :
  Js.is_integer q = true ↔ ∃ n : Z, q = Q2Qc (inject_Z n).
Proof.
  unfold Js.is_integer. rewrite Pos.eqb_eq. split.
  - intros Hden. exists (Qnum (this q)). apply Qc_is_canon. simpl.
    rewrite Qred_correct. destruct q as [[n d] Hc]. simpl in *. by subst.
  - intros [n ->]. simpl. rewrite Qred_identity; [done|].
    simpl. apply Z.gcd_1_r.
Qed.

(** A whole number of steps above the minimum is a whole number of half
    hours. *)
Lemma half_steps (h : Qc) (n : Z) :
  (h - Dashboard.hours_min) / Dashboard.hours_step = Q2Qc (inject_Z n) ↔
  h = Q2Qc ((n + 1) # 2).
Proof.
  assert (Q2Qc ((n + 1) # 2)
          = Q2Qc (inject_Z n) * Dashboard.hours_step + Dashboard.hours_min) as ->.
  { apply Qc_is_canon. simpl. rewrite !Qred_correct.
    unfold Qeq. simpl. lia. }
  assert (Dashboard.hours_step ≠ Q2Qc 0) as Hstep by by_computation.
  split.
  - intros <-. field. done.
  - intros ->. field. done.
Qed.

(** The hours the input accepts: the half hours from 0.5 to 8. *)
Lemma hours_input_valid_spec (h : Qc) :
  Dashboard.hours_input_valid (Js.Num h) = true ↔
  ∃ k : Z, (1 ≤ k ≤ 16)%Z ∧ h = Q2Qc (k # 2).
Proof.
  simpl. rewrite !andb_true_iff, !bool_decide_eq_true, is_integer_spec.
  split.
  - intros [[Hlo Hhi] [n Hn]]. apply half_steps in Hn. subst h.
    exists (n + 1)%Z. split; [|done].
    unfold Dashboard.hours_min, Dashboard.hours_max, Qcle in *.
    simpl in *. rewrite !Qred_correct in *.
    unfold Qle in *. simpl in *. lia.
  - intros (k & Hk & ->). split; [split|].
    + unfold Dashboard.hours_min, Qcle. simpl. rewrite !Qred_correct.
      unfold Qle. simpl. lia.
    + unfold Dashboard.hours_max, Qcle. simpl. rewrite !Qred_correct.
      unfold Qle. simpl. lia.
    + exists (k - 1)%Z. apply half_steps. do 2 f_equal. lia.
Qed.

Lemma submit_permesso (f : Dashboard.Form) :
  Dashboard.absenceType f = "permesso" →
  Dashboard.submit f =
    if Dashboard.dates_valid f && Dashboard.hours_input_valid (Dashboard.form_hours f)
    then Dashboard.handleCreateAbsence f else Dashboard.Blocked.
Proof.
  intros Hty. unfold Dashboard.submit, Dashboard.form_valid.
  rewrite Hty. simpl. reflexivity.
Qed.

(** C5.  On a request of type permesso the hours are mandatory and
    bounded: with no hours the form is not submitted (and the submit
    handler itself refuses with an error), with 0 hours or more than 8
    hours it is not submitted, whatever is posted carries hours between
    0.5 and 8, and both 0.5 and 8 are accepted.  With valid dates, what is
    accepted is exactly a whole number of half hours from 0.5 to 8. *)
Theorem permesso_hours_mandatory_and_bounded (f : Dashboard.Form) :
  Dashboard.absenceType f = "permesso" →
  (Dashboard.form_hours f = Js.Blank →
     Dashboard.submit f = Dashboard.Blocked ∧
     Dashboard.handleCreateAbsence f
       = Dashboard.ToastError "Inserisci le ore per il permesso") ∧
  (∀ h, Dashboard.form_hours f = Js.Num h →
     h = Q2Qc 0 ∨ (Q2Qc 8 < h)%Qc →
     Dashboard.submit f = Dashboard.Blocked) ∧
  (∀ body, Dashboard.submit f = Dashboard.Posted body →
     ∃ h, Dashboard.form_hours f = Js.Num h ∧
          Dashboard.new_hours body = Some h ∧
          (Q2Qc (1 # 2) ≤ h)%Qc ∧ (h ≤ Q2Qc 8)%Qc) ∧
  (∀ h, Dashboard.form_hours f = Js.Num h →
     Dashboard.dates_valid f = true →
     h = Q2Qc (1 # 2) ∨ h = Q2Qc 8 →
     ∃ body, Dashboard.submit f = Dashboard.Posted body ∧
             Dashboard.new_hours body = Some h) ∧
  (Dashboard.dates_valid f = true →
     (∃ body, Dashboard.submit f = Dashboard.Posted body) ↔
     ∃ k : Z, (1 ≤ k ≤ 16)%Z ∧ Dashboard.form_hours f = Js.Num (Q2Qc (k # 2))).
Proof.
  intros Hty. rewrite (submit_permesso f Hty).
  unfold Dashboard.handleCreateAbsence. rewrite Hty. simpl.
  split; [|split; [|split; [|split]]].
  - intros ->. simpl. by rewrite andb_false_r.
  - intros h -> [->|Hlt].
    + rewrite hours_input_invalid_zero. by rewrite andb_false_r.
    + rewrite (hours_input_invalid_above h Hlt). by rewrite andb_false_r.
  - intros body.
    destruct (Dashboard.dates_valid f); [|done].
    destruct (Dashboard.form_hours f) as [|h] eqn:Hh; [done|].
    destruct (Dashboard.hours_input_valid (Js.Num h)) eqn:Hv; [|done].
    simpl. intros [= <-]. simpl.
    destruct (hours_input_valid_range h Hv). eauto.
  - intros h -> -> Hh.
    assert (Dashboard.hours_input_valid (Js.Num h) = true) as ->
      by (by destruct Hh as [->| ->]).
    simpl. eauto.
  - intros ->. rewrite andb_true_l.
    destruct (Dashboard.form_hours f) as [|h] eqn:Hh.
    + split; [by intros [? ?]|]. by intros (? & _ & ?).
    + destruct (Dashboard.hours_input_valid (Js.Num h)) eqn:Hv.
      * apply hours_input_valid_spec in Hv as (k & Hk & ->).
        split; [eauto|]. intros _. simpl. eauto.
      * split; [by intros [? ?]|].
        intros (k & Hk & [= ->]).
        assert (Dashboard.hours_input_valid (Js.Num (Q2Qc (k # 2))) = true)
          by (apply hours_input_valid_spec; eauto).
        congruence.
Qed.

(** ** The owner's requests *)

Lemma row_actions_pending (a : Absence) (absenceId : string) :
  In (MyRequests.delete_request absenceId) (MyRequests.row_actions a) ↔
  status a = "pending" ∧ absenceId = absence_id a.
Proof.
  unfold MyRequests.row_actions.
  destruct (String.eqb_spec (status a) "pending") as [Hst|Hst]; simpl.
  - split.
    + intros [[= ->]|[]]. done.
    + intros [_ ->]. by left.
  - split; [done|]. by intros [? _].
Qed.

Lemma handleDelete_incl (absenceId : string) (deleted : bool)
    (absences : list Absence) (a : Absence) :
  In a (MyRequests.handleDelete absenceId deleted absences) → In a absences.
Proof.
  unfold MyRequests.handleDelete. destruct deleted; [|done].
  by intros [? _]%filter_In.
Qed.

Lemma handleDelete_removed (absenceId : string) (deleted : bool)
    (absences : list Absence) (a : Absence) :
  In a absences →
  ¬ In a (MyRequests.handleDelete absenceId deleted absences) →
  absence_id a = absenceId.
Proof.
  unfold MyRequests.handleDelete. destruct deleted; [|done].
  intros Hin Hnot.
  destruct (String.eqb_spec (absence_id a) absenceId) as [Heq|Hne]; [done|].
  exfalso. apply Hnot, filter_In. split; [done|].
  apply negb_true_iff. by apply String.eqb_neq.
Qed.

(** C8.  On the owner's page a request is offered for deletion exactly
    while it is pending (never when approved or rejected), and deletion is
    the only change the page can make: after any interaction every request
    still listed is one that was listed, unchanged, and a request that is
    gone has the id of a listed pending request. *)
Theorem owner_only_deletes_pending :
  (∀ (a : Absence) (absenceId : string),
     In (MyRequests.delete_request absenceId) (MyRequests.row_actions a) ↔
     status a = "pending" ∧ absenceId = absence_id a) ∧
  (∀ a : Absence,
     status a = "approved" ∨ status a = "rejected" →
     MyRequests.row_actions a = []) ∧
  (∀ absences absences' : list Absence,
     MyRequests.owner_step absences absences' →
     (∀ a, In a absences' → In a absences) ∧
     (∀ a, In a absences → ¬ In a absences' →
        ∃ p, In p absences ∧ status p = "pending" ∧
             absence_id a = absence_id p)).
Proof.
  split; [apply row_actions_pending|split].
  - intros a Hst. unfold MyRequests.row_actions.
    by destruct Hst as [-> | ->].
  - intros absences absences' Hstep.
    destruct Hstep as [p absenceId deleted Hp Hact|].
    + apply row_actions_pending in Hact as [Hpend ->]. split.
      * intros a. apply handleDelete_incl.
      * intros a Hin Hnot. exists p. split; [done|]. split; [done|].
        by apply (handleDelete_removed _ deleted absences).
    + split; [done|]. intros a Hin Hnot. by destruct Hnot.
Qed.

(** ** The Users page and the routes *)

Lemma includes_In (l : list string) (s : string) :
  Js.includes l (Some s) = true ↔ In s l.
Proof.
  simpl. rewrite existsb_exists. split.
  - intros (x & Hin & Heq). apply String.eqb_eq in Heq. by subst.
  - intros Hin. exists s. split; [done|]. apply String.eqb_refl.
Qed.

Lemma canRunAccrual_roles (currentUser : option User) :
  UsersPage.canRunAccrual currentUser = true ↔
  ∃ u, currentUser = Some u ∧ (role u = "admin" ∨ role u = "ufficio_personale").
Proof.
  unfold UsersPage.canRunAccrual. destruct currentUser as [u|]; simpl fmap.
  - rewrite includes_In. simpl. split.
    + intros [H|[H|[]]]; eauto.
    + intros (? & [= <-] & [H|H]); auto.
  - split; [done|]. by intros (? & ? & _).
Qed.

Lemma monthly_accrual_btn_rendered (currentUser : option User) (users : list User) :
  In UsersPage.monthly_accrual_btn (UsersPage.controls currentUser users) ↔
  UsersPage.canRunAccrual currentUser = true.
Proof.
  unfold UsersPage.controls, UsersPage.header_controls.
  rewrite !in_app_iff. split.
  - intros [[H|H]|[H|[H|H]]].
    + by destruct (UsersPage.canRunAccrual currentUser).
    + by destruct H.
    + apply in_concat in H as (l & Hl & H).
      apply list_elem_of_In, list_elem_of_fmap in Hl as (row & -> & _).
      unfold UsersPage.row_controls in H.
      rewrite !in_app_iff in H. destruct H as [H|[H|H]].
      * by destruct (UsersPage.canManageHours currentUser), H.
      * by destruct H.
      * destruct (_ && _); by destruct H.
    + by destruct (UsersPage.canManageHours currentUser), H.
    + simpl in H. by repeat destruct H as [H|H].
  - intros ->. left. left. by left.
Qed.

Lemma onClick_runMonthlyAccrual (c : UsersPage.Control) (confirmed : bool) :
  In Api.runMonthlyAccrual (UsersPage.onClick c confirmed) →
  c = UsersPage.monthly_accrual_btn ∧ confirmed = true.
Proof.
  destruct c, confirmed; simpl; intros H; try done;
    by repeat destruct H as [H|H].
Qed.

(** C7.  On the Users page a click can reach [runMonthlyAccrual] only
    through the monthly-accrual button (and only once the confirmation is
    given), and that button is rendered exactly when the role of the
    current user is admin or ufficio_personale: for any other role (or no
    user) no button the page can show triggers the operation. *)
Theorem accrual_trigger_roles (currentUser : option User) (users : list User) :
  (In UsersPage.monthly_accrual_btn (UsersPage.controls currentUser users) ↔
   ∃ u, currentUser = Some u ∧
        (role u = "admin" ∨ role u = "ufficio_personale")) ∧
  (∀ (c : UsersPage.Control) (confirmed : bool),
     In c (UsersPage.controls currentUser users) →
     In Api.runMonthlyAccrual (UsersPage.onClick c confirmed) →
     c = UsersPage.monthly_accrual_btn ∧
     ∃ u, currentUser = Some u ∧
          (role u = "admin" ∨ role u = "ufficio_personale")) ∧
  ((∀ u, currentUser = Some u →
         role u ≠ "admin" ∧ role u ≠ "ufficio_personale") →
   ∀ (c : UsersPage.Control) (confirmed : bool),
     In c (UsersPage.controls currentUser users) →
     ¬ In Api.runMonthlyAccrual (UsersPage.onClick c confirmed)).
Proof.
  assert (∀ c confirmed,
            In c (UsersPage.controls currentUser users) →
            In Api.runMonthlyAccrual (UsersPage.onClick c confirmed) →
            c = UsersPage.monthly_accrual_btn ∧
            UsersPage.canRunAccrual currentUser = true) as Hclick.
  { intros c confirmed Hc [-> _]%onClick_runMonthlyAccrual.
    split; [done|]. by apply monthly_accrual_btn_rendered in Hc. }
  split; [|split].
  - by rewrite monthly_accrual_btn_rendered, canRunAccrual_roles.
  - intros c confirmed Hc Hcall.
    destruct (Hclick c confirmed Hc Hcall) as [-> Hrun].
    split; [done|]. by apply canRunAccrual_roles.
  - intros Hrole c confirmed Hc Hcall.
    destruct (Hclick c confirmed Hc Hcall) as [_ Hrun].
    apply canRunAccrual_roles in Hrun as (u & Hu & Hr).
    destruct (Hrole u Hu). by destruct Hr.
Qed.

Lemma ProtectedRoute_renders (auth : App.Auth) (allowedRoles : option (list string))
    (children : App.Element) (page : App.Page) :
  App.ProtectedRoute auth allowedRoles children = App.Render page ↔
  App.loading auth = false ∧
  (∃ u, App.user auth = Some u ∧
        match allowedRoles with
        | Some roles => In (role u) roles
        | None => True
        end) ∧
  children = App.Render page.
Proof.
  unfold App.ProtectedRoute.
  destruct (App.loading auth); [by split; [|intros [? _]]|].
  destruct (App.user auth) as [u|].
  2: { split; [done|]. by intros (_ & (? & ? & _) & _). }
  destruct allowedRoles as [roles|].
  - destruct (Js.includes roles (Some (role u))) eqn:Hinc; simpl.
    + apply includes_In in Hinc. split; [eauto 6|]. by intros (_ & _ & ?).
    + split; [done|]. intros (_ & (u' & [= <-] & Hin) & _).
      apply includes_In in Hin. congruence.
  - split; [eauto 6|]. by intros (_ & _ & ?).
Qed.

(** ** The ledger *)






Example plus8_minus8_from_a_tenth :
  (0.1 + 8 + -8)%float = 0.09999999999999964%float.
Proof. reflexivity. Qed.

Example half_hours_values :
  Ledger.half_hours 1 = 0.5%float ∧ Ledger.half_hours (-3) = (-1.5)%float ∧
  Ledger.half_hours 320 = 160%float ∧ Ledger.half_hours 0 = 0%float.
Proof. repeat split. Qed.




(** The reading of C2 with exact increases fails: with a total of 160
    permit hours and a rate of 13.33 (the binary64 number nearest to it)
    one run leaves 173.33, which is 13.330000000000013 more than 160, and
    two runs leave 186.66000000000003, which is not 26.66 more. *)
Example accrual_of_a_third :
  (160 + 13.33 - 160)%float = 13.330000000000013%float ∧
  (160 + 13.33 + 13.33)%float = 186.66000000000003%float ∧
  (1.1 + 13.33 + 13.33)%float = 27.759999999999998%float ∧
  (1.1 + 2 * 13.33)%float = 27.76%float.
Proof. repeat split. Qed.


Section Balances.

Variable ferie_span_hours : string → string → Qc.

Local Abbreviation contribution := (Ledger.contribution ferie_span_hours).
Local Abbreviation sum_hours := (Ledger.sum_hours ferie_span_hours).
Local Abbreviation computeBalance := (Ledger.computeBalance ferie_span_hours).
Local Abbreviation request_hours := (Ledger.request_hours ferie_span_hours).
Local Abbreviation total_hours := (Ledger.total_hours ferie_span_hours).

Lemma sum_hours_empty (userId : string) (category : Ledger.Category) (st : string) :
  sum_hours userId category st ∅ = Q2Qc 0.
Proof. unfold Ledger.sum_hours. by rewrite map_fold_empty. Qed.




Lemma computeBalance_found (userId : string) (db : Ledger.Db) (u : User) :
  Ledger.users db !! userId = Some u →
  ∃ b, computeBalance userId db = Ledger.Ok b ∧
       ∀ category,
         Ledger.total (b category) = Ledger.category_total category u ∧
         Ledger.used (b category)
           = sum_hours userId category "approved" (Ledger.absences db) ∧
         Ledger.pending (b category)
           = sum_hours userId category "pending" (Ledger.absences db) ∧
         Ledger.remaining (b category)
           = Ledger.total (b category) - Ledger.used (b category)
             - Ledger.pending (b category).
Proof.
  intros Hu. unfold Ledger.computeBalance. rewrite Hu.
  eexists. split; [reflexivity|]. intros category. simpl. done.
Qed.

(** The sum kept by the ledger is the total of the hours of the list of
    the user's requests in the category and the status. *)
Lemma sum_hours_total_hours (userId : string) (category : Ledger.Category)
    (st : string) (requests : gmap string Absence) :
  sum_hours userId category st requests
  = total_hours category (Ledger.requests_of userId category st requests).
Proof.
  unfold Ledger.sum_hours, Ledger.requests_of. rewrite map_fold_foldr.
  induction (map_to_list requests) as [|[i a] l IH]; [done|].
  rewrite fmap_cons. simpl. rewrite IH. unfold Ledger.contribution.
  destruct (Ledger.counts_for userId category st a); simpl; [done|ring].
Qed.

Lemma requests_of_spec (userId : string) (category : Ledger.Category)
    (st : string) (requests : gmap string Absence) (a : Absence) :
  In a (Ledger.requests_of userId category st requests) ↔
  (∃ i, requests !! i = Some a) ∧
  absence_user_id a = userId ∧
  absence_type a = Ledger.category_type category ∧
  status a = st.
Proof.
  unfold Ledger.requests_of, Ledger.counts_for.
  rewrite filter_In, !andb_true_iff, !String.eqb_eq, <-list_elem_of_In.
  rewrite list_elem_of_fmap. split.
  - intros [([i a'] & -> & Hin%elem_of_map_to_list) [[? ?] ?]]. eauto.
  - intros ([i Hi] & ? & ? & ?). split; [|done].
    exists (i, a). split; [done|]. by apply elem_of_map_to_list.
Qed.

(** C1.  For a user of the store and whatever requests the store holds,
    the balance is computed, and in the permit category its remaining
    hours are the total minus the used minus the pending hours, where the
    total is the user's total permit hours, used is the sum of the hours
    of the user's approved permit requests and pending the sum of the
    hours of the user's pending permit requests. *)
Theorem computeBalance_permit_remaining (db : Ledger.Db) (userId : string) (u : User) :
  Ledger.users db !! userId = Some u →
  ∃ b, computeBalance userId db = Ledger.Ok b ∧
       Ledger.remaining (b Ledger.permit)
         = Ledger.total (b Ledger.permit) - Ledger.used (b Ledger.permit)
           - Ledger.pending (b Ledger.permit) ∧
       Ledger.total (b Ledger.permit) = total_permessi_hours u ∧
       Ledger.used (b Ledger.permit)
         = total_hours Ledger.permit
             (Ledger.requests_of userId Ledger.permit "approved" (Ledger.absences db)) ∧
       Ledger.pending (b Ledger.permit)
         = total_hours Ledger.permit
             (Ledger.requests_of userId Ledger.permit "pending" (Ledger.absences db)).
Proof.
  intros Hu.
  destruct (computeBalance_found userId db u Hu) as (b & Hb & Hcat).
  destruct (Hcat Ledger.permit) as (Ht & Hus & Hpe & Hre).
  exists b. rewrite <-!sum_hours_total_hours. done.
Qed.





Local Abbreviation listAllBalances := (Ledger.listAllBalances ferie_span_hours).

Lemma authorized_get_all_balances (caller : User) :
  Ledger.authorized Ledger.get_all_balances caller = true ↔
  role caller = "admin" ∨ role caller = "manager" ∨ role caller = "ufficio_personale".
Proof.
  unfold Ledger.authorized. simpl Ledger.required_roles.
  rewrite includes_In. simpl. split.
  - intros [H|[H|[H|[]]]]; auto.
  - intros [H|[H|H]]; auto.
Qed.

(** C6.  The list-all-balances operation answers a caller whose role is
    admin, manager or personnel-office (ufficio_personale in the data),
    and no caller of another role: such a caller is refused with an
    authorization error.  When it answers, it lists each user of the store
    once, with the balance [computeBalance] gives for that user. *)
Theorem listAllBalances_roles (caller : User) (db : Ledger.Db) :
  ((∃ balances, listAllBalances caller db = Ledger.Ok balances) ↔
   role caller = "admin" ∨ role caller = "manager"
   ∨ role caller = "ufficio_personale") ∧
  (¬ (role caller = "admin" ∨ role caller = "manager"
      ∨ role caller = "ufficio_personale") →
   listAllBalances caller db = Ledger.Failed Ledger.authorization) ∧
  (∀ balances, listAllBalances caller db = Ledger.Ok balances →
     List.NoDup balances.*1 ∧
     ∀ userId b, In (userId, b) balances ↔
       is_Some (Ledger.users db !! userId) ∧ b = computeBalance userId db).
Proof.
  unfold Ledger.listAllBalances.
  pose proof (authorized_get_all_balances caller) as Hauth.
  destruct (Ledger.authorized Ledger.get_all_balances caller).
  - split; [split; [intros _; by apply Hauth|eauto]|].
    split; [intros Hno; destruct Hno; by apply Hauth|].
    intros balances [= <-]. split.
    + rewrite <-list_fmap_compose.
      apply NoDup_ListNoDup, NoDup_fst_map_to_list.
    + intros userId b. rewrite <-list_elem_of_In, list_elem_of_fmap. split.
      * intros ([k u] & [= -> ->] & Hin%elem_of_map_to_list). simpl. eauto.
      * intros ([u Hu] & ->). exists (userId, u).
        split; [done|]. by apply elem_of_map_to_list.
  - split; [split; [by intros [? ?]|]|].
    + intros Hrole. apply Hauth in Hrole. discriminate Hrole.
    + split; [done|]. by intros ? ?.
Qed.

End Balances.

(** ** The scenario of the specification *)

(** A user with 40 permit hours files a permit request of 4 hours: the
    balance of the permit category is 40 in total, 0 used, 4 pending and
    36 remaining. *)
Example scenario_pending :
  ∃ b, Ledger.computeBalance eight_hours "u1" a_store = Ledger.Ok b ∧
       Ledger.total (b Ledger.permit) = Q2Qc 40 ∧
       Ledger.used (b Ledger.permit) = Q2Qc 0 ∧
       Ledger.pending (b Ledger.permit) = Q2Qc 4 ∧
       Ledger.remaining (b Ledger.permit) = Q2Qc 36.
Proof.
  eexists. split; [reflexivity|]. simpl.
  repeat split; by_computation.
Qed.

(** After the approval: 40 in total, 4 used, 0 pending, 36 remaining. *)
Example scenario_approved :
  ∃ db b,
    Ledger.handleAbsenceAction "a1" Ledger.approve None "u2" a_store
      = Ledger.Ok db ∧
    Ledger.computeBalance eight_hours "u1" db = Ledger.Ok b ∧
    Ledger.total (b Ledger.permit) = Q2Qc 40 ∧
    Ledger.used (b Ledger.permit) = Q2Qc 4 ∧
    Ledger.pending (b Ledger.permit) = Q2Qc 0 ∧
    Ledger.remaining (b Ledger.permit) = Q2Qc 36.
Proof.
  eexists _, _. split; [reflexivity|]. split; [reflexivity|]. simpl.
  repeat split; by_computation.
Qed.

(** The hours input steps by half hours from its minimum: three quarters
    of an hour are refused, every half hour from 0.5 to 8 is taken. *)
Example hours_step_mismatch :
  Dashboard.hours_input_valid (Js.Num (Q2Qc (3 # 4))) = false.
Proof. reflexivity. Qed.

Example hours_half_steps :
  forallb (λ k, Dashboard.hours_input_valid (Js.Num (Q2Qc (Z.pos k # 2))))
    [1; 2; 3; 4; 5; 6; 7; 8; 9; 10; 11; 12; 13; 14; 15; 16]%positive = true.
Proof. reflexivity. Qed.

(** ** Instances of the theorems on the sample documents *)

Lemma computeBalance_permit_remaining_witness :
  ∃ b, Ledger.computeBalance eight_hours "u1" a_store = Ledger.Ok b ∧
       Ledger.remaining (b Ledger.permit)
         = Ledger.total (b Ledger.permit) - Ledger.used (b Ledger.permit)
           - Ledger.pending (b Ledger.permit) ∧
       Ledger.total (b Ledger.permit) = total_permessi_hours an_employee ∧
       Ledger.used (b Ledger.permit) = Ledger.total_hours eight_hours Ledger.permit [] ∧
       Ledger.pending (b Ledger.permit)
         = Ledger.total_hours eight_hours Ledger.permit [a_permit_request "pending"].
Proof.
  apply (computeBalance_permit_remaining eight_hours a_store "u1" an_employee).
  reflexivity.
Defined.




Lemma permesso_hours_mandatory_and_bounded_witness :
  Dashboard.submit (a_permit_form Js.Blank) = Dashboard.Blocked ∧
  Dashboard.submit (a_permit_form (Js.Num (Q2Qc 0))) = Dashboard.Blocked ∧
  Dashboard.submit (a_permit_form (Js.Num (Q2Qc 9))) = Dashboard.Blocked ∧
  ∃ body, Dashboard.submit (a_permit_form (Js.Num (Q2Qc 8))) = Dashboard.Posted body ∧
          Dashboard.new_hours body = Some (Q2Qc 8).
Proof.
  destruct (permesso_hours_mandatory_and_bounded (a_permit_form Js.Blank) eq_refl)
    as (Hblank & _).
  destruct (permesso_hours_mandatory_and_bounded
              (a_permit_form (Js.Num (Q2Qc 0))) eq_refl) as (_ & Hzero & _).
  destruct (permesso_hours_mandatory_and_bounded
              (a_permit_form (Js.Num (Q2Qc 9))) eq_refl) as (_ & Hnine & _).
  destruct (permesso_hours_mandatory_and_bounded
              (a_permit_form (Js.Num (Q2Qc 8))) eq_refl) as (_ & _ & _ & Height & _).
  split; [by apply Hblank|].
  split; [apply (Hzero (Q2Qc 0) eq_refl); by left|].
  split; [apply (Hnine (Q2Qc 9) eq_refl); right; by_computation|].
  apply (Height (Q2Qc 8) eq_refl eq_refl). by right.
Defined.

Lemma accrual_trigger_roles_witness :
  In UsersPage.monthly_accrual_btn
     (UsersPage.controls (Some an_office_clerk) [an_employee; a_manager]) ∧
  ¬ In Api.runMonthlyAccrual (UsersPage.onClick UsersPage.save_user_btn true) ∧
  ¬ In UsersPage.monthly_accrual_btn
     (UsersPage.controls (Some a_manager) [an_employee; a_manager]).
Proof.
  destruct (accrual_trigger_roles (Some an_office_clerk) [an_employee; a_manager])
    as (Hclerk & _).
  destruct (accrual_trigger_roles (Some a_manager) [an_employee; a_manager])
    as (Hbtn & _ & Hnone).
  split; [|split].
  - apply Hclerk. exists an_office_clerk. split; [done|]. by right.
  - apply (Hnone ltac:(by intros u [= <-]) UsersPage.save_user_btn true).
    vm_compute. tauto.
  - intros (u & [= <-] & [Hr|Hr])%Hbtn; discriminate Hr.
Defined.

Lemma owner_only_deletes_pending_witness :
  In (MyRequests.delete_request "a1")
     (MyRequests.row_actions (a_permit_request "pending")) ∧
  MyRequests.row_actions (a_vacation_request "approved") = [] ∧
  (∀ a, In a (MyRequests.handleDelete "a1" true
                [a_permit_request "pending"; a_vacation_request "approved"]) →
        In a [a_permit_request "pending"; a_vacation_request "approved"]).
Proof.
  destruct owner_only_deletes_pending as (Hoffer & Hnone & Hstep).
  split; [by apply Hoffer|].
  split; [apply Hnone; by left|].
  apply (Hstep [a_permit_request "pending"; a_vacation_request "approved"]).
  apply (MyRequests.owner_delete _ (a_permit_request "pending")).
  - by left.
  - by left.
Defined.

Lemma progress_value_defined_and_clamped_witness :
  Dashboard.feriePercentage (Some a_balance) = Some (Q2Qc 25) ∧
  UsersPage.permessi_progress a_balance = Some (Q2Qc 100).
Proof.
  destruct progress_value_defined_and_clamped as (_ & Hferie & Hpermessi & _).
  destruct (Hferie a_balance) as (v & Hv & _ & _ & Hnz & _).
  destruct (Hpermessi a_balance) as (w & _ & Hw & _ & _ & Hz).
  destruct Hnz as [Hbelow _]; [by_computation|].
  destruct Hz as [_ Habove]; [by_computation|].
  rewrite Hv, Hw, Hbelow, Habove by by_computation.
  split; [f_equal; by_computation|reflexivity].
Defined.

Lemma filteredAbsences_membership_witness :
  In (a_vacation_request "approved")
     (Dashboard.filteredAbsences
        [a_permit_request "pending"; a_vacation_request "approved"]
        Dashboard.initial_filters) ∧
  ¬ In (a_permit_request "pending")
     (Dashboard.filteredAbsences
        [a_permit_request "pending"; a_vacation_request "approved"]
        Dashboard.initial_filters).
Proof.
  destruct (filteredAbsences_membership
              [a_permit_request "pending"; a_vacation_request "approved"]
              Dashboard.initial_filters (a_vacation_request "approved"))
    as (Hiff & _).
  destruct (filteredAbsences_membership
              [a_permit_request "pending"; a_vacation_request "approved"]
              Dashboard.initial_filters (a_permit_request "pending"))
    as (_ & _ & _ & Hhidden).
  split.
  - apply Hiff.
    + simpl. by left.
    + split; [right; by left|]. split; [by right|done].
  - apply Hhidden. by left.
Defined.

(** * Further properties of the pages *)

(** ** The calendar of the Dashboard *)

Lemma existsb_eqb_In (x : string) (l : list string) :
  existsb (String.eqb x) l = true ↔ In x l.
Proof.
  rewrite existsb_exists. split.
  - intros (y & Hy & ->%String.eqb_eq). done.
  - intros Hx. exists x. split; [done|apply String.eqb_refl].
Qed.

Lemma lookup_push_day (days : Calendar.Days) (key : string) (a : Absence) (k : string) :
  Calendar.lookup_day (Calendar.push_day days key a) k
  = if String.eqb key k
    then Some (default [] (Calendar.lookup_day days key) ++ [a])%list
    else Calendar.lookup_day days k.
Proof.
  induction days as [|[k0 l] days IH]; simpl.
  - by destruct (String.eqb key k).
  - destruct (String.eqb_spec k0 key) as [->|Hne]; simpl.
    + by destruct (String.eqb key k).
    + rewrite IH. destruct (String.eqb_spec key k) as [->|Hne']; [|done].
      by rewrite (proj2 (String.eqb_neq k0 k) Hne).
Qed.

Lemma push_day_keys (days : Calendar.Days) (key : string) (a : Absence) (k : string) :
  In k (Calendar.push_day days key a).*1 ↔ k = key ∨ In k days.*1.
Proof.
  induction days as [|[k0 l] days IH]; simpl.
  - firstorder (subst; auto; congruence).
  - destruct (String.eqb_spec k0 key) as [->|Hne]; simpl.
    + firstorder (subst; auto; congruence).
    + rewrite IH. firstorder (subst; auto; congruence).
Qed.

Lemma push_day_NoDup (days : Calendar.Days) (key : string) (a : Absence) :
  List.NoDup days.*1 → List.NoDup (Calendar.push_day days key a).*1.
Proof.
  induction days as [|[k0 l] days IH]; simpl; intros Hnd.
  - constructor; [by intros []|constructor].
  - apply List.NoDup_cons_iff in Hnd as [Hk0 Hnd].
    destruct (String.eqb_spec k0 key) as [->|Hne]; simpl.
    + by constructor.
    + constructor; [|by apply IH].
      rewrite push_day_keys. firstorder (subst; auto; congruence).
Qed.

Lemma lookup_day_In (days : Calendar.Days) (k : string) (l : list Absence) :
  List.NoDup days.*1 →
  Calendar.lookup_day days k = Some l ↔ In (k, l) days.
Proof.
  induction days as [|[k0 l0] days IH]; simpl; intros Hnd; [firstorder (subst; auto; congruence)|].
  apply List.NoDup_cons_iff in Hnd as [Hk0 Hnd].
  destruct (String.eqb_spec k0 k) as [->|Hne].
  - split; [firstorder (subst; auto; congruence)|]. intros [[= ->]|Hin]; [done|].
    destruct Hk0. apply (in_map fst) in Hin. done.
  - rewrite (IH Hnd). firstorder (subst; auto; congruence).
Qed.

Lemma distinct_In (l : list string) (x : string) :
  In x (Calendar.distinct l) ↔ In x l.
Proof.
  unfold Calendar.distinct.
  assert (∀ seen, In x (fold_left
            (λ seen y, if existsb (String.eqb y) seen then seen else (seen ++ [y])%list)
            l seen) ↔ In x seen ∨ In x l) as H.
  { induction l as [|y l IH]; intros seen; simpl; [firstorder (subst; auto; congruence)|].
    rewrite IH. destruct (existsb (String.eqb y) seen) eqn:Hy.
    - apply existsb_eqb_In in Hy. firstorder (subst; auto; congruence).
    - rewrite in_app_iff. simpl. firstorder (subst; auto; congruence). }
  rewrite H. simpl. firstorder (subst; auto; congruence).
Qed.

Lemma includes_types (dayAbsences : list Absence) (t : string) :
  Js.includes (Calendar.types dayAbsences) (Some t) = true ↔
  ∃ a, In a dayAbsences ∧ absence_type a = t.
Proof.
  unfold Calendar.types. simpl. rewrite existsb_eqb_In, distinct_In.
  rewrite <-list_elem_of_In, list_elem_of_fmap.
  setoid_rewrite list_elem_of_In. firstorder (subst; auto; congruence).
Qed.

Lemma filter_keys_NoDup (f : string * list Absence → bool) (days : Calendar.Days) :
  List.NoDup days.*1 → List.NoDup (List.filter f days).*1.
Proof.
  induction days as [|e days IH]; simpl; intros Hnd; [constructor|].
  apply List.NoDup_cons_iff in Hnd as [He Hnd].
  destruct (f e); simpl; [|by apply IH].
  constructor; [|by apply IH].
  intros Hin. apply He.
  apply in_map_iff in Hin as (e' & <- & [Hin _]%filter_In).
  by apply in_map.
Qed.

Section CalendarProperties.

Variable interval_keys : string → string → option (list string).

(** The days of an interval are distinct. *)
Hypothesis interval_keys_NoDup :
  ∀ start_date end_date keys,
    interval_keys start_date end_date = Some keys → List.NoDup keys.

Local Abbreviation add_absence := (Calendar.add_absence interval_keys).
Local Abbreviation absenceDays := (Calendar.absenceDays interval_keys).
Local Abbreviation covers := (Calendar.covers interval_keys).

Lemma lookup_fold_push (keys : list string) (days : Calendar.Days)
    (a : Absence) (k : string) :
  List.NoDup keys →
  Calendar.lookup_day (fold_left (λ d key, Calendar.push_day d key a) keys days) k
  = if existsb (String.eqb k) keys
    then Some (default [] (Calendar.lookup_day days k) ++ [a])%list
    else Calendar.lookup_day days k.
Proof.
  revert days. induction keys as [|key keys IH]; intros days Hnd; [done|].
  apply List.NoDup_cons_iff in Hnd as [Hkey Hnd].
  simpl. rewrite (IH _ Hnd), lookup_push_day.
  rewrite (String.eqb_sym k key).
  destruct (String.eqb_spec key k) as [->|Hne]; simpl; [|done].
  destruct (existsb (String.eqb k) keys) eqn:Hk; [|done].
  by apply existsb_eqb_In in Hk.
Qed.

Lemma lookup_add_absence (days : Calendar.Days) (a : Absence) (k : string) :
  Calendar.lookup_day (add_absence days a) k
  = if covers k a
    then Some (default [] (Calendar.lookup_day days k) ++ [a])%list
    else Calendar.lookup_day days k.
Proof.
  unfold Calendar.add_absence, Calendar.covers.
  destruct (interval_keys (start_date a) (end_date a)) as [keys|] eqn:Hk; [|done].
  apply lookup_fold_push. eauto.
Qed.

Lemma lookup_fold_add (abs : list Absence) (days : Calendar.Days) (k : string) :
  Calendar.lookup_day (fold_left add_absence abs days) k
  = match Calendar.lookup_day days k, List.filter (covers k) abs with
    | None, [] => None
    | o, l => Some (default [] o ++ l)%list
    end.
Proof.
  revert days. induction abs as [|a abs IH]; intros days; simpl.
  - destruct (Calendar.lookup_day days k); simpl; [|done].
    by rewrite app_nil_r.
  - rewrite IH, lookup_add_absence.
    destruct (covers k a); [|done].
    destruct (Calendar.lookup_day days k); simpl; [|done].
    by rewrite <-app_assoc.
Qed.

Lemma add_absence_NoDup (days : Calendar.Days) (a : Absence) :
  List.NoDup days.*1 → List.NoDup (add_absence days a).*1.
Proof.
  unfold Calendar.add_absence.
  destruct (interval_keys (start_date a) (end_date a)) as [keys|]; [|done].
  revert days. induction keys as [|key keys IH]; intros days Hnd; [done|].
  simpl. by apply IH, push_day_NoDup.
Qed.

Lemma absenceDays_NoDup (abs : list Absence) :
  List.NoDup (absenceDays abs).*1.
Proof.
  unfold Calendar.absenceDays.
  assert (∀ days, List.NoDup days.*1 →
            List.NoDup (fold_left add_absence abs days).*1) as H.
  { induction abs as [|a abs IH]; intros days Hnd; [done|].
    simpl. by apply IH, add_absence_NoDup. }
  apply H. constructor.
Qed.

Lemma absenceDays_lookup (abs : list Absence) (k : string) :
  Calendar.lookup_day (absenceDays abs) k
  = match List.filter (covers k) abs with
    | [] => None
    | l => Some l
    end.
Proof. unfold Calendar.absenceDays. by rewrite lookup_fold_add. Qed.

Lemma days_of_type_In (abs : list Absence) (t k : string) :
  In k (Calendar.days_of_type t (absenceDays abs)) ↔
  ∃ a, In a abs ∧ absence_type a = t ∧ covers k a = true.
Proof.
  unfold Calendar.days_of_type.
  rewrite in_map_iff. split.
  - intros ([k' l] & Hk & [Hin Hinc]%filter_In). simpl in *. subst k'.
    apply lookup_day_In in Hin; [|apply absenceDays_NoDup].
    rewrite absenceDays_lookup in Hin.
    apply includes_types in Hinc as (a & Ha & Ht).
    exists a. destruct (List.filter (covers k) abs) as [|b l'] eqn:Hf; [done|].
    injection Hin as <-. rewrite <-Hf in Ha.
    apply filter_In in Ha as [? ?]. done.
  - intros (a & Ha & Ht & Hc).
    assert (In a (List.filter (covers k) abs)) as Hf by by apply filter_In.
    destruct (List.filter (covers k) abs) as [|b l'] eqn:Hl; [done|].
    exists (k, b :: l'). split; [done|]. apply filter_In. split.
    + apply lookup_day_In; [apply absenceDays_NoDup|].
      by rewrite absenceDays_lookup, Hl.
    + simpl. apply includes_types. eauto.
Qed.

(** X1.  In the calendar, the absences filed under a day are exactly the
    shown absences whose interval has that day, in the order of the list;
    a day no shown absence covers has no entry, and no day has an empty
    entry. *)
Theorem absenceDays_day (filteredAbsences : list Absence) (key : string) :
  (∀ dayAbsences,
     Calendar.lookup_day (absenceDays filteredAbsences) key = Some dayAbsences ↔
     dayAbsences = List.filter (covers key) filteredAbsences ∧ dayAbsences ≠ []) ∧
  (Calendar.lookup_day (absenceDays filteredAbsences) key = None ↔
   ∀ a, In a filteredAbsences → covers key a = false) ∧
  List.NoDup (absenceDays filteredAbsences).*1.
Proof.
  rewrite absenceDays_lookup. split; [|split].
  - intros l. destruct (List.filter (covers key) filteredAbsences) as [|b l']; firstorder (subst; auto; congruence).
  - destruct (List.filter (covers key) filteredAbsences) as [|b l'] eqn:Hf.
    + split; [|done]. intros _ a Ha.
      destruct (covers key a) eqn:Hc; [|done].
      assert (In a (List.filter (covers key) filteredAbsences)) as Hin
        by by apply filter_In.
      rewrite Hf in Hin. destruct Hin.
    + split; [done|]. intros Hno.
      assert (In b (List.filter (covers key) filteredAbsences)) as Hin
        by (rewrite Hf; by left).
      apply filter_In in Hin as [Hin Hc]. rewrite (Hno b Hin) in Hc. done.
  - apply absenceDays_NoDup.
Qed.

(** X2.  A day is coloured for an absence type exactly when a shown
    absence of that type covers it, and each of the three lists of
    coloured days names a day at most once. *)
Theorem modifiers_days (filteredAbsences : list Absence) (key : string) :
  let m := Calendar.modifiers (absenceDays filteredAbsences) in
  (In key (Calendar.ferie m) ↔
     ∃ a, In a filteredAbsences ∧ absence_type a = "ferie" ∧ covers key a = true) ∧
  (In key (Calendar.permesso m) ↔
     ∃ a, In a filteredAbsences ∧ absence_type a = "permesso" ∧ covers key a = true) ∧
  (In key (Calendar.malattia m) ↔
     ∃ a, In a filteredAbsences ∧ absence_type a = "malattia" ∧ covers key a = true) ∧
  List.NoDup (Calendar.ferie m) ∧
  List.NoDup (Calendar.permesso m) ∧
  List.NoDup (Calendar.malattia m).
Proof.
  simpl. repeat split; try apply days_of_type_In;
    apply filter_keys_NoDup, absenceDays_NoDup.
Qed.

(** X3.  Unticking the checkbox of a type clears the colour of that type
    from the whole calendar, whatever the status filter. *)
Theorem unticked_type_not_coloured (absences : list Absence) (fl : Dashboard.Filters) :
  let m := Calendar.modifiers (absenceDays (Dashboard.filteredAbsences absences fl)) in
  (Dashboard.filterFerie fl = false → Calendar.ferie m = []) ∧
  (Dashboard.filterPermesso fl = false → Calendar.permesso m = []) ∧
  (Dashboard.filterMalattia fl = false → Calendar.malattia m = []).
Proof.
  assert (∀ t, Dashboard.type_checkbox fl t = Some false →
            Calendar.days_of_type t
              (absenceDays (Dashboard.filteredAbsences absences fl)) = []) as H.
  { intros t Ht.
    destruct (Calendar.days_of_type t _) as [|k l] eqn:Hd; [done|].
    assert (In k (Calendar.days_of_type t
                    (absenceDays (Dashboard.filteredAbsences absences fl)))) as Hin
      by (rewrite Hd; by left).
    apply days_of_type_In in Hin as (a & [_ Hk]%filter_In & <- & _).
    exfalso. revert Ht Hk. unfold Dashboard.type_checkbox, Dashboard.keep.
    destruct (_ && _); [done|].
    destruct (String.eqb (absence_type a) "ferie").
    { intros [= ->]. done. }
    destruct (String.eqb (absence_type a) "permesso").
    { intros [= ->]. done. }
    destruct (String.eqb (absence_type a) "malattia").
    { intros [= ->]. done. }
    done. }
  simpl. repeat split; intros Hf; apply H;
    unfold Dashboard.type_checkbox; simpl; by rewrite Hf.
Qed.

End CalendarProperties.

(** ** Routes and sidebar *)

Lemma ProtectedRoute_session (u : User) (allowedRoles : option (list string))
    (children : App.Element) :
  App.ProtectedRoute (App.session u) allowedRoles children
  = match allowedRoles with
    | Some roles => if Js.includes roles (Some (role u)) then children
                    else App.Navigate "/"
    | None => children
    end.
Proof.
  unfold App.ProtectedRoute. cbn [App.loading App.user App.session].
  destruct allowedRoles as [roles|]; [|done].
  by destruct (Js.includes roles (Some (role u))).
Qed.

Lemma ProtectedRoute_gate (auth : App.Auth) (allowedRoles : option (list string))
    (children : App.Element) :
  (App.loading auth = true →
   App.ProtectedRoute auth allowedRoles children = App.LoadingScreen) ∧
  (App.loading auth = false → App.user auth = None →
   App.ProtectedRoute auth allowedRoles children = App.Navigate "/login").
Proof.
  unfold App.ProtectedRoute. split.
  - by intros ->.
  - by intros -> ->.
Qed.

(** X4.  Nothing but the login page is shown to a session that is still
    loading or is signed out: every other route shows the loading screen
    while loading and sends a signed-out visitor to the login page. *)
Theorem routes_need_a_signed_in_user (auth : App.Auth) (r : App.Route) :
  r ≠ App.login_route →
  (App.loading auth = true → App.element auth r = App.LoadingScreen) ∧
  (App.loading auth = false → App.user auth = None →
   App.element auth r = App.Navigate "/login") ∧
  (∀ page, App.element auth r = App.Render page →
           App.loading auth = false ∧ ∃ u, App.user auth = Some u).
Proof.
  intros Hr. split; [|split].
  - intros Hl. destruct r; try done; simpl; by apply ProtectedRoute_gate.
  - intros Hl Hu. destruct r; try done; simpl; by apply ProtectedRoute_gate.
  - intros page Hp. destruct r; try done; simpl in Hp;
      apply ProtectedRoute_renders in Hp as (Hl & (u & Hu & _) & _); eauto.
Qed.

(** X5.  For a signed-in user every route either shows a page or sends
    the user to "/", and "/" shows the calendar to every role: a refusal
    never leads to another refusal.  The approvals page is shown exactly
    to the roles admin and manager, the settings page exactly to admin. *)
Theorem signed_in_routes (u : User) :
  (∀ r, (∃ page, App.element (App.session u) r = App.Render page) ∨
        App.element (App.session u) r = App.Navigate "/") ∧
  App.element (App.session u) App.index_route = App.Render App.Dashboard ∧
  App.element (App.session u) App.my_requests_route = App.Render App.MyRequests ∧
  (App.element (App.session u) App.approvals_route = App.Render App.Approvals ↔
   role u = "admin" ∨ role u = "manager") ∧
  (App.element (App.session u) App.settings_route = App.Render App.Settings ↔
   role u = "admin").
Proof.
  split; [|split; [done|split; [done|split]]].
  - intros r. destruct r; simpl; rewrite ?ProtectedRoute_session; eauto;
      match goal with |- context [Js.includes ?l ?x] => destruct (Js.includes l x) end;
      eauto.
  - simpl. rewrite !ProtectedRoute_session.
    destruct (Js.includes _ _) eqn:Hinc.
    + apply includes_In in Hinc. simpl in Hinc. split; [|done]. intros _.
      destruct Hinc as [<-|[<-|[]]]; auto.
    + split; [done|]. intros Hr.
      assert (Js.includes ["admin"; "manager"] (Some (role u)) = true) as Ht.
      { apply includes_In. simpl. destruct Hr as [->| ->]; auto. }
      congruence.
  - simpl. rewrite !ProtectedRoute_session.
    destruct (Js.includes _ _) eqn:Hinc.
    + apply includes_In in Hinc. simpl in Hinc. split; [|done]. intros _.
      by destruct Hinc as [<-|[]].
    + split; [done|]. intros Hr.
      assert (Js.includes ["admin"] (Some (role u)) = true) as Ht.
      { apply includes_In. simpl. auto. }
      congruence.
Qed.


(** ** The filter bar *)

Lemma filter_all (A : Type) (f : A → bool) (l : list A) :
  (∀ x, In x l → f x = true) → List.filter f l = l.
Proof.
  induction l as [|x l IH]; simpl; intros H; [done|].
  rewrite (H x) by auto. f_equal. apply IH. auto.
Qed.

Lemma filter_filter (A : Type) (f g : A → bool) (l : list A) :
  List.filter f (List.filter g l) = List.filter (λ x, g x && f x) l.
Proof.
  induction l as [|x l IH]; simpl; [done|].
  destruct (g x); simpl; [|done]. destruct (f x); by rewrite IH.
Qed.

(** X7.  With the status filter on "all" and the three checkboxes ticked
    nothing is hidden: the filtered list is the whole list, absences of an
    unknown type or status included. *)
Theorem all_filters_open (absences : list Absence) (fl : Dashboard.Filters) :
  Dashboard.filterStatus fl = "all" →
  Dashboard.filterFerie fl = true →
  Dashboard.filterPermesso fl = true →
  Dashboard.filterMalattia fl = true →
  Dashboard.filteredAbsences absences fl = absences.
Proof.
  intros Hs Hf Hp Hm. apply filter_all. intros a _.
  unfold Dashboard.keep. rewrite Hs, Hf, Hp, Hm. simpl.
  by rewrite !andb_false_r.
Qed.

Lemma keep_unticked (fl : Dashboard.Filters) (a : Absence) :
  Dashboard.keep (FilterBar.setFilterFerie false fl) a
  = Dashboard.keep (FilterBar.setFilterFerie true fl) a
    && negb (String.eqb (absence_type a) "ferie") ∧
  Dashboard.keep (FilterBar.setFilterPermesso false fl) a
  = Dashboard.keep (FilterBar.setFilterPermesso true fl) a
    && negb (String.eqb (absence_type a) "permesso") ∧
  Dashboard.keep (FilterBar.setFilterMalattia false fl) a
  = Dashboard.keep (FilterBar.setFilterMalattia true fl) a
    && negb (String.eqb (absence_type a) "malattia").
Proof.
  unfold Dashboard.keep. simpl.
  destruct (_ && _); [done|].
  destruct (String.eqb (absence_type a) "ferie"),
    (String.eqb (absence_type a) "permesso"),
    (String.eqb (absence_type a) "malattia"),
    (Dashboard.filterFerie fl), (Dashboard.filterPermesso fl),
    (Dashboard.filterMalattia fl); done.
Qed.

(** X8.  Unticking the checkbox of a type removes from the filtered list
    exactly the absences of that type and leaves the others in place:
    the list with the box unticked is the list with the box ticked
    without the absences of the type. *)
Theorem unticking_removes_one_type (absences : list Absence) (fl : Dashboard.Filters) :
  Dashboard.filteredAbsences absences (FilterBar.setFilterFerie false fl)
  = List.filter (λ a, negb (String.eqb (absence_type a) "ferie"))
      (Dashboard.filteredAbsences absences (FilterBar.setFilterFerie true fl)) ∧
  Dashboard.filteredAbsences absences (FilterBar.setFilterPermesso false fl)
  = List.filter (λ a, negb (String.eqb (absence_type a) "permesso"))
      (Dashboard.filteredAbsences absences (FilterBar.setFilterPermesso true fl)) ∧
  Dashboard.filteredAbsences absences (FilterBar.setFilterMalattia false fl)
  = List.filter (λ a, negb (String.eqb (absence_type a) "malattia"))
      (Dashboard.filteredAbsences absences (FilterBar.setFilterMalattia true fl)).
Proof.
  unfold Dashboard.filteredAbsences. rewrite !filter_filter.
  repeat split; apply filter_ext; intros a;
    by destruct (keep_unticked fl a) as (? & ? & ?).
Qed.

(** ** Deleting a request from the owner's list *)

Lemma without_unique (absenceId : string) (absences : list Absence) (a : Absence) :
  List.NoDup (absence_id <$> absences) →
  In a absences →
  absence_id a = absenceId →
  (length (List.filter (λ b, negb (String.eqb (absence_id b) absenceId)) absences) + 1
   = length absences)%nat.
Proof.
  intros Hnd Ha <-. induction absences as [|b l IH]; [done|].
  rewrite fmap_cons in Hnd. apply List.NoDup_cons_iff in Hnd as [Hb Hnd].
  simpl. destruct Ha as [->|Ha].
  - rewrite String.eqb_refl. simpl. rewrite filter_all; [lia|].
    intros c Hc. apply negb_true_iff, String.eqb_neq. intros Heq.
    apply Hb. rewrite <-Heq. apply list_elem_of_In, list_elem_of_fmap.
    exists c. split; [done|]. by apply list_elem_of_In.
  - destruct (String.eqb_spec (absence_id b) (absence_id a)) as [Heq|Hne]; simpl.
    + destruct Hb. rewrite Heq. apply list_elem_of_In, list_elem_of_fmap.
      exists a. split; [done|]. by apply list_elem_of_In.
    + rewrite <-(IH Hnd Ha). lia.
Qed.

Lemma same_id_same_request (absences : list Absence) (a b : Absence) :
  List.NoDup (absence_id <$> absences) →
  In a absences → In b absences →
  absence_id a = absence_id b → a = b.
Proof.
  induction absences as [|c l IH]; [done|].
  rewrite fmap_cons. intros [Hc Hnd]%List.NoDup_cons_iff Ha Hb Heq.
  assert (∀ x, In x l → absence_id x ≠ absence_id c) as Hfresh.
  { intros x Hx Hxc. apply Hc. rewrite <-Hxc.
    apply list_elem_of_In, list_elem_of_fmap. exists x.
    split; [done|]. by apply list_elem_of_In. }
  destruct Ha as [->|Ha], Hb as [->|Hb]; [done| | |by apply IH].
  - by destruct (Hfresh b Hb).
  - by destruct (Hfresh a Ha).
Qed.

Lemma filter_sublist (A : Type) (f : A → bool) (l : list A) :
  List.filter f l `sublist_of` l.
Proof.
  induction l as [|x l IH]; simpl; [done|].
  destruct (f x); by constructor.
Qed.

(** X9.  When the listed requests have distinct ids, a successful delete
    of a listed request removes that request and nothing else: the list
    is one shorter, the request is gone, every other request is still
    there, and the remaining ones keep their order. *)
Theorem handleDelete_removes_one (absences : list Absence) (a : Absence) :
  List.NoDup (absence_id <$> absences) →
  In a absences →
  let absences' := MyRequests.handleDelete (absence_id a) true absences in
  (length absences' + 1 = length absences)%nat ∧
  ¬ In a absences' ∧
  (∀ b, In b absences → b ≠ a → In b absences') ∧
  absences' `sublist_of` absences.
Proof.
  intros Hnd Ha. simpl. split; [|split; [|split]].
  - by apply (without_unique _ _ a).
  - intros [_ Hk]%filter_In. by rewrite String.eqb_refl in Hk.
  - intros b Hb Hne. apply filter_In. split; [done|].
    apply negb_true_iff, String.eqb_neq. intros Heq. apply Hne.
    by apply (same_id_same_request absences).
  - apply filter_sublist.
Qed.

(** X10.  A delete leaves the list as it is when the server refuses it or
    when no listed request has the id, and deleting the same id again
    changes nothing more.  Two deletes carried out one after the other,
    the second on the list the first has left, give the same list in
    either order.  Two deletes clicked on the same list each leave that
    list without their own request: the answer that comes second puts
    the request of the first back on the list. *)
Theorem handleDelete_edge_cases (absences : list Absence) (i j : string) :
  MyRequests.handleDelete i false absences = absences ∧
  ((∀ a, In a absences → absence_id a ≠ i) →
   MyRequests.handleDelete i true absences = absences) ∧
  MyRequests.handleDelete i true (MyRequests.handleDelete i true absences)
  = MyRequests.handleDelete i true absences ∧
  MyRequests.handleDelete i true (MyRequests.handleDelete j true absences)
  = MyRequests.handleDelete j true (MyRequests.handleDelete i true absences) ∧
  (∀ a, In a absences → absence_id a = i → i ≠ j →
     ¬ In a (MyRequests.handleDelete i true absences) ∧
     In a (MyRequests.handleDelete j true absences) ∧
     MyRequests.handleDelete j true absences
     ≠ MyRequests.handleDelete j true (MyRequests.handleDelete i true absences)).
Proof.
  unfold MyRequests.handleDelete. split; [done|split; [|split; [|split]]].
  - intros Hno. apply filter_all. intros a Ha.
    apply negb_true_iff, String.eqb_neq. by apply Hno.
  - rewrite filter_filter. apply filter_ext. intros a.
    by destruct (String.eqb (absence_id a) i).
  - rewrite !filter_filter. apply filter_ext. intros a.
    by destruct (String.eqb (absence_id a) i), (String.eqb (absence_id a) j).
  - intros a Ha Hid Hne.
    assert (¬ In a (List.filter (λ b, negb (String.eqb (absence_id b) i)) absences))
      as Hgone.
    { intros [_ Hk]%filter_In. by rewrite Hid, String.eqb_refl in Hk. }
    assert (In a (List.filter (λ b, negb (String.eqb (absence_id b) j)) absences))
      as Hback.
    { apply filter_In. split; [done|].
      apply negb_true_iff, String.eqb_neq. congruence. }
    split; [done|]. split; [done|].
    intros Heq. rewrite Heq in Hback.
    apply filter_In in Hback as [Hin _]. by apply Hgone.
Qed.

(** ** The progress value between empty and full *)

Lemma Qcdiv_le_1 (used total : Qc) :
  (Q2Qc 0 < total)%Qc →
  ((used ≤ total)%Qc → (used / total * Q2Qc 100 ≤ Q2Qc 100)%Qc) ∧
  ((total ≤ used)%Qc → (Q2Qc 100 ≤ used / total * Q2Qc 100)%Qc) ∧
  ((Q2Qc 0 ≤ used)%Qc → (Q2Qc 0 ≤ used / total * Q2Qc 100)%Qc).
Proof.
  intros Ht.
  assert (total ≠ Q2Qc 0) as Hnz by (intros ->; by apply Qclt_not_eq in Ht).
  assert (Q2Qc 0 ≤ / total)%Qc as Hinv by by apply Qclt_le_weak, Qcinv_pos.
  assert (Q2Qc 0 ≤ Q2Qc 100)%Qc as H100 by by_computation.
  assert (total / total * Q2Qc 100 = Q2Qc 100) as Hone.
  { unfold Qcdiv. rewrite Qcmult_inv_r by done. apply Qcmult_1_l. }
  assert (Q2Qc 0 / total * Q2Qc 100 = Q2Qc 0) as Hzero.
  { unfold Qcdiv. ring. }
  split; [|split]; intros Hle.
  - rewrite <-Hone at 2. unfold Qcdiv.
    apply Qcmult_le_mono_nonneg_r; [exact H100|].
    by apply Qcmult_le_mono_nonneg_r.
  - rewrite <-Hone at 1. unfold Qcdiv.
    apply Qcmult_le_mono_nonneg_r; [exact H100|].
    by apply Qcmult_le_mono_nonneg_r.
  - rewrite <-Hzero at 1. unfold Qcdiv.
    apply Qcmult_le_mono_nonneg_r; [exact H100|].
    by apply Qcmult_le_mono_nonneg_r.
Qed.

(** X11.  With a positive total and non-negative used hours the progress
    value lies between 0 and 100: it is the used share of the total in
    percent up to the total, and stays at 100 from the total on. *)
Theorem percentage_share (used total : Qc) :
  (Q2Qc 0 < total)%Qc →
  (Q2Qc 0 ≤ used)%Qc →
  ∃ v, Dashboard.percentage used total = Some v ∧
       (Q2Qc 0 ≤ v)%Qc ∧ (v ≤ Q2Qc 100)%Qc ∧
       ((used ≤ total)%Qc → v = used / total * Q2Qc 100) ∧
       ((total ≤ used)%Qc → v = Q2Qc 100).
Proof.
  intros Ht Hu.
  assert (total ≠ Q2Qc 0) as Hnz by (intros ->; by apply Qclt_not_eq in Ht).
  destruct (Qcdiv_le_1 used total Ht) as (Hbelow & Habove & Hpos).
  unfold Dashboard.percentage, Js.div, Js.or_default.
  destruct (decide (total = Q2Qc 0)) as [|_]; [done|].
  destruct (decide (total = Q2Qc 0)) as [|_]; [done|].
  eexists. split; [reflexivity|]. unfold Js.Math_min.
  case_decide as Hlt.
  - split; [auto|]. split; [by apply Qclt_le_weak|]. split; [done|].
    intros Hle. apply Habove in Hle. by apply Qcle_not_lt in Hle.
  - apply Qcnot_lt_le in Hlt.
    split; [by_computation|]. split; [apply Qcle_refl|]. split; [|done].
    intros Hle. by apply Qcle_antisym; [|apply Hbelow].
Qed.

(** ** Requests that are no permesso *)

(** The end date is compared with the start date as a date, not as a
    text: a request from the last day of the year 9999 to the next day
    has valid dates, and a day the month does not have is no date. *)
Example dates_valid_across_year_10000 :
  Dashboard.dates_valid
    {| Dashboard.absenceType := "ferie";
       Dashboard.startDate := "9999-12-31"; Dashboard.endDate := "10000-01-01";
       Dashboard.form_hours := Js.Blank; Dashboard.form_notes := "" |} = true.
Proof. reflexivity. Qed.

Example parse_date_leap_day :
  Js.parse_date "2024-02-29" = Some {| Js.year := 2024; Js.month := 2; Js.day := 29 |} ∧
  Js.parse_date "2026-02-29" = None ∧
  Js.parse_date "26-02-01" = None ∧
  Js.parse_date "" = None.
Proof. repeat split. Qed.

Lemma dates_valid_spec (f : Dashboard.Form) :
  Dashboard.dates_valid f = true ↔
  ∃ s e, Js.parse_date (Dashboard.startDate f) = Some s ∧
         Js.parse_date (Dashboard.endDate f) = Some e ∧
         Js.date_leb s e = true.
Proof.
  unfold Dashboard.dates_valid.
  destruct (Js.parse_date (Dashboard.startDate f)) as [s|];
    destruct (Js.parse_date (Dashboard.endDate f)) as [e|].
  - split; [eauto|]. by intros (? & ? & [= <-] & [= <-] & ?).
  - split; [done|]. by intros (? & ? & _ & ? & _).
  - split; [done|]. by intros (? & ? & ? & _).
  - split; [done|]. by intros (? & ? & ? & _).
Qed.


(** ** The Approvals page *)

Lemma without_In (absenceId : string) (l : list Absence) (x : Absence) :
  In x (Approvals.without absenceId l) ↔ In x l ∧ absence_id x ≠ absenceId.
Proof.
  unfold Approvals.without. rewrite filter_In, negb_true_iff, String.eqb_neq. done.
Qed.

(** X13.  In the first revision of the page, approvals that follow one
    another each remove their request from the pending list, in either
    order with the same result; a refused approval leaves the list as it
    was; every approval ends with no request marked as processing. *)
Theorem approvals_in_sequence (st : Approvals.State) (i j : string) (x : Absence) :
  (In x (Approvals.absences
           (Approvals.handleApprove j true (Approvals.handleApprove i true st))) ↔
   In x (Approvals.absences st) ∧ absence_id x ≠ i ∧ absence_id x ≠ j) ∧
  Approvals.absences
    (Approvals.handleApprove j true (Approvals.handleApprove i true st))
  = Approvals.absences
      (Approvals.handleApprove i true (Approvals.handleApprove j true st)) ∧
  Approvals.absences (Approvals.handleApprove i false st) = Approvals.absences st ∧
  (∀ approved, Approvals.processing (Approvals.handleApprove i approved st) = None).
Proof.
  simpl. split; [|split; [|split]]; try done.
  - rewrite !without_In. tauto.
  - unfold Approvals.without. rewrite !filter_filter. apply filter_ext.
    intros a. by destruct (String.eqb (absence_id a) i), (String.eqb (absence_id a) j).
Qed.

(** X14.  In the first revision of the page, when a second approval is
    started before the first has been answered, both handlers hold the
    list of the same render: the one answered last writes that list
    without its own request only, so the request approved first, gone
    after the first answer, is listed again. *)
Theorem overlapping_approvals (st : Approvals.State) (i j : string) (x : Absence) :
  i ≠ j →
  In x (Approvals.absences st) →
  absence_id x = i →
  let '(st1, wi) := Approvals.handleApprove_begin i st in
  let '(st2, wj) := Approvals.handleApprove_begin j st1 in
  let st3 := Approvals.handleApprove_end true wi st2 in
  let st4 := Approvals.handleApprove_end true wj st3 in
  ¬ In x (Approvals.absences st3) ∧
  In x (Approvals.absences st4) ∧
  Approvals.absences st4 = Approvals.without j (Approvals.absences st).
Proof.
  intros Hij Hx Hi. simpl. rewrite !without_In. subst i. tauto.
Qed.

(** X15.  The reason of a rejection outlives the dialog.  In the later
    revision Annulla keeps the text, so that a reason typed for one
    request and cancelled is sent with the rejection of the next request;
    in the first revision Annulla clears it, but closing the dialog any
    other way keeps it.  A confirmed rejection clears it in both. *)
Theorem reject_reason_carried_over (a b : Absence) (text : string)
    (st : Approvals.RejectState) (st0 : Approvals.State) :
  (Approvals.confirmReject true
     (Approvals.openReject b
        (Approvals.cancel (Approvals.typeReason text (Approvals.openReject a st)))))
  = (Some {| Approvals.reject_id := absence_id b; Approvals.reject_reason := text |},
     {| Approvals.dialog_open := false; Approvals.dialog_absence := None;
        Approvals.reason := "" |}) ∧
  (Approvals.handleReject true
     (Approvals.openRejectDialog b
        (Approvals.cancelReject
           (Approvals.setRejectReason text (Approvals.openRejectDialog a st0))))).1
  = Some {| Approvals.reject_id := absence_id b; Approvals.reject_reason := "" |} ∧
  (Approvals.handleReject true
     (Approvals.openRejectDialog b
        (Approvals.onOpenChange false
           (Approvals.setRejectReason text (Approvals.openRejectDialog a st0))))).1
  = Some {| Approvals.reject_id := absence_id b; Approvals.reject_reason := text |} ∧
  Approvals.rejectReason
    (Approvals.handleReject true
       (Approvals.setRejectReason text (Approvals.openRejectDialog a st0))).2 = "".
Proof. done. Qed.

(** ** The logo of the Settings page *)

(** X16.  A selected file is uploaded exactly when its type starts with
    "image/" and its size is at most 2 MiB (2097152 bytes); a file of
    another type is refused for its type whatever its size, and no file
    selected does nothing. *)
Theorem handleFileSelect_accepts (files : list Settings.File) :
  (∀ file, Settings.handleFileSelect files = Settings.Upload file ↔
           (∃ rest, files = file :: rest) ∧
           String.prefix "image/" (Settings.file_type file) = true ∧
           (Settings.file_size file ≤ 2097152)%N) ∧
  (∀ file rest, files = file :: rest →
     String.prefix "image/" (Settings.file_type file) = false →
     Settings.handleFileSelect files
     = Settings.ToastError "Seleziona un file immagine") ∧
  (Settings.handleFileSelect files = Settings.Ignored ↔ files = []).
Proof.
  unfold Settings.handleFileSelect.
  change (2 * 1024 * 1024)%N with 2097152%N.
  split; [|split].
  - intros file. destruct files as [|f rest]; simpl.
    { split; [done|]. by intros [[? ?] _]. }
    destruct (String.prefix "image/" (Settings.file_type f)) eqn:Hp; simpl.
    + destruct (N.ltb_spec 2097152 (Settings.file_size f)) as [Hlt|Hle].
      * split; [done|]. intros ([? [= <- _]] & _ & Hle). lia.
      * split.
        -- intros [= <-]. eauto.
        -- by intros ([? [= <- _]] & _ & _).
    + split; [done|]. intros ([? [= <- _]] & Hp' & _). congruence.
  - intros file rest -> Hp. simpl. by rewrite Hp.
  - destruct files as [|f rest]; simpl; [done|].
    split; [|done].
    destruct (String.prefix "image/" (Settings.file_type f)); simpl; [|done].
    by destruct (2097152 <? Settings.file_size f)%N.
Qed.

(** ** The dialogs of the Users page *)

(** X17.  Opening the edit dialog on a user and saving at once sends the
    user's own role and the four hour figures unchanged, and the user's
    manager unchanged too, unless the manager id is the empty text or
    the text "none", which are sent as no manager. *)
Theorem edit_dialog_round_trip (u : User) :
  ∃ data,
    UserForms.handleSave (UserForms.openEditDialog u) = Some (user_id u, data) ∧
    UserForms.update_role data = role u ∧
    UserForms.update_total_ferie_hours data = total_ferie_hours u ∧
    UserForms.update_total_permessi_hours data = total_permessi_hours u ∧
    UserForms.update_monthly_ferie_hours data = monthly_ferie_hours u ∧
    UserForms.update_monthly_permessi_hours data = monthly_permessi_hours u ∧
    (manager_id u ≠ Some "" → manager_id u ≠ Some "none" →
     UserForms.update_manager_id data = manager_id u) ∧
    (manager_id u = Some "" ∨ manager_id u = Some "none" →
     UserForms.update_manager_id data = None).
Proof.
  assert (∀ q, UserForms.number_or_zero (Js.Num q) = q) as Hnum.
  { intros q. unfold UserForms.number_or_zero, Js.or_default. simpl.
    by case_decide. }
  eexists. split; [reflexivity|]. simpl. rewrite !Hnum.
  repeat (split; [done|]). split.
  - intros Hne Hnn. destruct (manager_id u) as [m|]; [|done].
    destruct (String.eqb_spec m "") as [->|_]; [done|].
    destruct (String.eqb_spec m "none") as [->|_]; done.
  - intros [-> | ->]; done.
Qed.

(** X18.  A new user is posted exactly when email, password, first name
    and last name are all filled in; otherwise the form is refused and
    kept.  A creation that succeeds puts the form back to its defaults,
    from which a further submit is refused. *)
Theorem handleAddUser_required_fields (newUser : UserForms.NewUser) :
  ((∃ userData, UserForms.handleAddUser newUser = UserForms.Posted userData) ↔
   UserForms.new_email newUser ≠ "" ∧ UserForms.new_password newUser ≠ "" ∧
   UserForms.new_first_name newUser ≠ "" ∧ UserForms.new_last_name newUser ≠ "") ∧
  ((∀ userData, UserForms.handleAddUser newUser ≠ UserForms.Posted userData) →
   ∀ created, UserForms.after_handleAddUser created newUser = newUser) ∧
  (∀ userData, UserForms.handleAddUser newUser = UserForms.Posted userData →
     UserForms.after_handleAddUser true newUser = UserForms.initial_newUser ∧
     UserForms.after_handleAddUser false newUser = newUser ∧
     UserForms.handleAddUser (UserForms.after_handleAddUser true newUser)
     = UserForms.Refused "Compila tutti i campi obbligatori").
Proof.
  unfold UserForms.after_handleAddUser, UserForms.handleAddUser.
  destruct (String.eqb_spec (UserForms.new_email newUser) "") as [He|He];
    destruct (String.eqb_spec (UserForms.new_password newUser) "") as [Hp|Hp];
    destruct (String.eqb_spec (UserForms.new_first_name newUser) "") as [Hf|Hf];
    destruct (String.eqb_spec (UserForms.new_last_name newUser) "") as [Hl|Hl];
    simpl.
  all: split; [split; [by intros [? ?]||eauto|tauto||eauto]|].
  all: split; [done||(intros H; exfalso; by eapply H)|done].
Qed.

(** X19.  On a row of the users table the delete button is shown exactly
    to an admin on the row of another user: an admin is never offered the
    deletion of the own account, and no other role any deletion. *)
Theorem delete_button_rows (currentUser : option User) (row : User) :
  In UsersPage.delete_user_btn (UsersPage.row_controls currentUser row) ↔
  ∃ u, currentUser = Some u ∧ role u = "admin" ∧ user_id row ≠ user_id u.
Proof.
  unfold UsersPage.row_controls. rewrite !in_app_iff. split.
  - intros [H|[[H|[]]|H]]; try done.
    + by destruct (UsersPage.canManageHours currentUser), H.
    + destruct (negb _ && _) eqn:Hc; [|done].
      apply andb_true_iff in Hc as [Hself Hrole].
      apply negb_true_iff, bool_decide_eq_false in Hself.
      apply bool_decide_eq_true in Hrole.
      destruct currentUser as [u|]; [|done]. simpl in *.
      exists u. split; [done|]. split; [congruence|]. congruence.
  - intros (u & -> & Hr & Hne). right. right. simpl.
    rewrite Hr. rewrite bool_decide_eq_false_2 by congruence. simpl.
    by left.
Qed.

(** ** Instances of the further properties on the sample documents *)

Lemma sample_interval_keys_NoDup (start_date end_date : string) (keys : list string) :
  sample_interval_keys start_date end_date = Some keys → List.NoDup keys.
Proof.
  unfold sample_interval_keys.
  destruct (_ && _).
  - intros [= <-]. repeat constructor; simpl; intuition discriminate.
  - destruct (String.eqb start_date end_date); [|done].
    intros [= <-]. repeat constructor. by intros [].
Qed.

Lemma sample_absences_NoDup : List.NoDup (absence_id <$> sample_absences).
Proof. repeat constructor; simpl; intuition discriminate. Qed.

Lemma absenceDays_day_witness :
  Calendar.lookup_day (Calendar.absenceDays sample_interval_keys sample_absences)
    "2026-08-12" = Some [a_vacation_request "approved"] ∧
  Calendar.lookup_day (Calendar.absenceDays sample_interval_keys sample_absences)
    "2026-08-15" = None.
Proof.
  destruct (absenceDays_day sample_interval_keys sample_interval_keys_NoDup
              sample_absences "2026-08-12") as (Hsome & _).
  destruct (absenceDays_day sample_interval_keys sample_interval_keys_NoDup
              sample_absences "2026-08-15") as (_ & Hnone & _).
  split.
  - apply Hsome. split; [reflexivity|discriminate].
  - apply Hnone. intros a [<-|[<-|[]]]; reflexivity.
Defined.

Lemma modifiers_days_witness :
  In "2026-08-12"
     (Calendar.ferie
        (Calendar.modifiers (Calendar.absenceDays sample_interval_keys sample_absences))) ∧
  List.NoDup
     (Calendar.ferie
        (Calendar.modifiers (Calendar.absenceDays sample_interval_keys sample_absences))).
Proof.
  destruct (modifiers_days sample_interval_keys sample_interval_keys_NoDup
              sample_absences "2026-08-12") as (Hferie & _ & _ & Hnd & _).
  split; [|exact Hnd].
  apply Hferie. exists (a_vacation_request "approved").
  split; [right; by left|]. split; reflexivity.
Defined.

Lemma unticked_type_not_coloured_witness :
  Calendar.ferie
    (Calendar.modifiers
       (Calendar.absenceDays sample_interval_keys
          (Dashboard.filteredAbsences sample_absences
             (FilterBar.setFilterFerie false Dashboard.initial_filters)))) = [].
Proof.
  destruct (unticked_type_not_coloured sample_interval_keys sample_interval_keys_NoDup
              sample_absences (FilterBar.setFilterFerie false Dashboard.initial_filters))
    as (Hferie & _).
  apply Hferie. reflexivity.
Defined.

Lemma routes_need_a_signed_in_user_witness :
  App.element a_visitor App.users_route = App.Navigate "/login".
Proof.
  destruct (routes_need_a_signed_in_user a_visitor App.users_route
              ltac:(discriminate)) as (_ & Hout & _).
  apply Hout; reflexivity.
Defined.


Lemma all_filters_open_witness :
  Dashboard.filteredAbsences sample_absences
    (FilterBar.setFilterStatus "all" Dashboard.initial_filters) = sample_absences.
Proof.
  apply (all_filters_open sample_absences
           (FilterBar.setFilterStatus "all" Dashboard.initial_filters));
    reflexivity.
Defined.

Lemma handleDelete_removes_one_witness :
  (length (MyRequests.handleDelete "a1" true sample_absences) + 1
   = length sample_absences)%nat ∧
  In (a_vacation_request "approved") (MyRequests.handleDelete "a1" true sample_absences).
Proof.
  destruct (handleDelete_removes_one sample_absences (a_permit_request "pending")
              sample_absences_NoDup ltac:(by left)) as (Hlen & _ & Hothers & _).
  split; [exact Hlen|].
  apply Hothers; [right; by left|discriminate].
Defined.

Lemma percentage_share_witness :
  ∃ v, Dashboard.percentage (Q2Qc 20) (Q2Qc 40) = Some v ∧
       (Q2Qc 0 ≤ v)%Qc ∧ (v ≤ Q2Qc 100)%Qc ∧
       v = Q2Qc 20 / Q2Qc 40 * Q2Qc 100.
Proof.
  destruct (percentage_share (Q2Qc 20) (Q2Qc 40)
              ltac:(by_computation) ltac:(by_computation))
    as (v & Hv & Hlo & Hhi & Hbelow & _).
  exists v. repeat split; try done. apply Hbelow. by_computation.
Defined.


Lemma overlapping_approvals_witness :
  In (a_permit_request "pending")
     (Approvals.absences
        (Approvals.handleApprove_end true
           (Approvals.handleApprove_begin "a2"
              (Approvals.handleApprove_begin "a1" a_pending_page).1).2
           (Approvals.handleApprove_end true
              (Approvals.handleApprove_begin "a1" a_pending_page).2
              (Approvals.handleApprove_begin "a2"
                 (Approvals.handleApprove_begin "a1" a_pending_page).1).1))).
Proof.
  pose proof (overlapping_approvals a_pending_page "a1" "a2"
                (a_permit_request "pending")
                ltac:(discriminate) ltac:(by left) eq_refl) as H.
  simpl in H. destruct H as (_ & Hback & _). exact Hback.
Defined.
